(** * Syntax highlighting based on Pygments (trac/mimeview/pygments_renderer.py)

    A shallow embedding of [GenshiHtmlFormatter.generate] (the token
    coalescer) and of the [PygmentsRenderer] methods around it, with the
    properties of the module's specification stated over the embedding.

    Python values are modelled as follows: [unicode]/[str] as [string],
    [int] as [Z], [dict] as stdpp's [gmap], generators over a finite input
    as the [list] of what they yield, [None]-or-value as [option], and a
    call that may raise as a value of [result]. *)

From stdpp Require Import gmap strings list fin_maps.
From Stdlib Require Import ZArith Lia Ascii.

Local Open Scope string_scope.
Local Open Scope list_scope.

(** ** Python truthiness ([if x:]) *)

Class Truthy (A : Type) := truthy : A → bool.

(** [bool(s)] of a string: non-empty. *)
Definition str_truthy (s : string) : bool :=
  match s with
  | EmptyString => false
  | String _ _ => true
  end.

(** [bool(l)] of a [list] or [tuple] (no [__nonzero__]): non-empty. *)
Definition seq_truthy {A} (l : list A) : bool :=
  match l with
  | [] => false
  | _ :: _ => true
  end.

(** [bool(o)] where [o] is [None] or a value. *)
Definition opt_truthy {A} (f : A → bool) (o : option A) : bool :=
  match o with
  | None => false
  | Some a => f a
  end.

#[export] Instance string_Truthy : Truthy string := str_truthy.
#[export] Instance seq_Truthy {A} : Truthy (list A) := seq_truthy.
#[export] Instance option_Truthy `{Truthy A} : Truthy (option A) :=
  opt_truthy truthy.

(** ** The fragment of [genshi.core] the formatter uses *)

Module Genshi.

(** [QName] is a [unicode] subclass; equality is string equality. *)
Definition QName := string.

(** [Attrs] is a sequence of [(name, value)] pairs (a [tuple]/[list]
    subclass that defines neither [__eq__] nor [__nonzero__]). *)
Abbreviation Attrs := (list (QName * string)).

(** The position triple [(filename, lineno, offset)]. *)
Abbreviation Pos := (option string * Z * Z)%type.

(** Stream events [(kind, data, pos)] of the kinds the formatter yields. *)
Inductive Event :=
| START (data : QName * Attrs) (pos : Pos)
| END (data : QName) (pos : Pos)
| TEXT (data : string) (pos : Pos).

#[export] Instance Event_eq_dec : EqDecision Event.
Proof. solve_decision. Defined.

End Genshi.

Export Genshi.

(** ** [GenshiHtmlFormatter] *)

Module GenshiHtmlFormatter.

Section generate.
(** Pygments token types, and [HtmlFormatter._get_css_class], which
    lives in Pygments and is taken as given. *)
Context {tokentype : Type}.
Variable _get_css_class : tokentype → string.

Definition pos : Pos := (None, -1, -1)%Z.
Definition span : QName := "span".

(** One iteration of the [for ttype, value in tokens] loop of the inner
    generator: the events it yields and the new value of [lattrs].
    [attrs] is [Attrs([(QName('class'), css)])], a sequence of one pair
    whatever the class is; [attrs == lattrs] is equality of sequences, and
    never holds while [lattrs] is [None]. *)
Definition loop_body (lattrs : option Attrs) (tok : tokentype * string)
  : list Event * option Attrs :=
  let '(ttype, value) := tok in
  let attrs : Attrs := [("class", _get_css_class ttype)] in
  if bool_decide (Some attrs = lattrs) then
    ([TEXT value pos], lattrs)
  else if truthy value then
    ((if truthy lattrs then [END span pos] else []) ++
     (if truthy attrs then [START (span, attrs) pos] else []) ++
     [TEXT value pos],
     Some attrs)
  else
    ([], lattrs).

(** The inner generator [_generate], started with a given [lattrs]:
    the loop, then the closing [END] when [lattrs] is truthy. *)
Fixpoint _generate (lattrs : option Attrs) (tokens : list (tokentype * string))
  : list Event :=
  match tokens with
  | [] => if truthy lattrs then [END span pos] else []
  | tok :: tokens' =>
      let '(out, lattrs') := loop_body lattrs tok in
      out ++ _generate lattrs' tokens'
  end.

(** [generate(tokens)]: the stream of [_generate()] with
    [lattrs = None]. *)
Definition generate (tokens : list (tokentype * string)) : list Event :=
  _generate None tokens.

End generate.

End GenshiHtmlFormatter.

(** ** Exceptions and calls that may raise *)

(** The exception classes that occur.  [pygments.util.ClassNotFound] is a
    subclass of [ValueError] and is modelled as [ValueError];
    [OtherError cls msg] stands for an exception of any other class raised
    inside an external library.  [IndexError] and [TypeError] are raised
    by the interpreter, with a message that depends on the type of the
    object indexed; the message is not modelled.  [NameError name] is
    what the use of a global name that is not bound raises. *)
Inductive exn :=
| KeyError (key : string)
| IndexError
| TypeError
| NameError (name : string)
| ValueError (msg : string)
| OSError (msg : string)
| OtherError (cls msg : string)
| Exception (msg : string).

#[export] Instance exn_eq_dec : EqDecision exn.
Proof. solve_decision. Defined.

Inductive result (A : Type) :=
| Return (a : A)
| Raise (e : exn).
Arguments Return {A} a.
Arguments Raise {A} e.

#[export] Instance result_bind : MBind result := λ A B k r,
  match r with
  | Return a => k a
  | Raise e => Raise e
  end.

(** [try: body  except classes: handler] *)
Definition try_except {A} (body : result A) (classes : exn → bool)
    (handler : exn → result A) : result A :=
  match body with
  | Return a => Return a
  | Raise e => if classes e then handler e else Raise e
  end.

(** ** Lazy sequences

    What consuming a generator gives: the items it yields, and the
    exception that ends the iteration when one does ([None] when the
    generator is exhausted normally). *)
Abbreviation lazy A := (list A * option exn)%type.

Section generate_lazy.
Context {tokentype : Type}.
Variable _get_css_class : tokentype → string.

(** The events the loop of the inner generator yields for the tokens,
    without what follows the loop. *)
Fixpoint yielded (lattrs : option Attrs) (tokens : list (tokentype * string))
  : list Event :=
  match tokens with
  | [] => []
  | tok :: tokens' =>
      let '(out, lattrs') :=
        GenshiHtmlFormatter.loop_body _get_css_class lattrs tok in
      out ++ yielded lattrs' tokens'
  end.

(** [generate(tokens)] on a lazy token sequence.  The stream is a
    generator over the tokens: when the tokens end normally it yields
    what [generate] yields for them; when the tokens end with an
    exception, the [for] loop ends with it, after the events of the
    tokens before, and the closing [END] is not reached. *)
Definition generate_lazy (tokens : lazy (tokentype * string)) : lazy Event :=
  match tokens.2 with
  | None => (GenshiHtmlFormatter.generate _get_css_class tokens.1, None)
  | Some e => (yielded None tokens.1, Some e)
  end.

End generate_lazy.

(** ** String operations of the Python library *)

Module Py.

(** [s.split(sep)] ([maxsplit = None]) and [s.split(sep, n)]
    ([maxsplit = Some n]) for a one-character separator. *)
Fixpoint split (sep : Ascii.ascii) (maxsplit : option nat) (s : string)
  : list string :=
  match s with
  | EmptyString => [""]
  | String c s' =>
      if bool_decide (c = sep) && negb (bool_decide (maxsplit = Some O)) then
        "" :: split sep (Nat.pred <$> maxsplit) s'
      else
        match split sep maxsplit s' with
        | [] => [String c ""]
        | p :: ps => String c p :: ps
        end
  end.

(** [sep.join(parts)] *)
Fixpoint join (sep : string) (parts : list string) : string :=
  match parts with
  | [] => ""
  | [p] => p
  | p :: ps => p +:+ sep +:+ join sep ps
  end.

(** [l[0]] *)
Definition first {A} (l : list A) : result A :=
  match l with
  | [] => Raise IndexError
  | x :: _ => Return x
  end.

(** [l[-1]] *)
Definition last {A} (l : list A) : result A :=
  match List.last (Some <$> l) None with
  | None => Raise IndexError
  | Some x => Return x
  end.

(** [l[:-1]] *)
Definition init {A} (l : list A) : list A := removelast l.

End Py.

(** ** What the module imports

    Pygments and the hosting framework are not part of this module; their
    functions are the fields of two records, so that the renderer is
    defined over any behaviour they may have. *)

(** A lexer as [get_all_lexers] yields it:
    [(name, aliases, filenames, mimetypes)]. *)
Abbreviation lexer_info :=
  (string * list string * list string * list string)%type.

Record Pygments := {
  (** token types, lexer objects and style classes *)
  tokentype : Type;
  lexer : Type;
  style : Type;
  (** [HtmlFormatter._get_css_class] *)
  _get_css_class : tokentype → string;
  (** [pygments.lexers._mapping.LEXERS.itervalues()], in iteration order:
      [(module, name, aliases, filenames, mimetypes)] *)
  LEXERS_itervalues : list (string * string * list string * list string * list string);
  (** [pygments.plugin.find_plugin_lexers()], each class given by its
      [name], [aliases], [filenames] and [mimetypes] attributes *)
  find_plugin_lexers : list lexer_info;
  (** [get_lexer_by_name(language, stripnl=False)] *)
  get_lexer_by_name : string → result lexer;
  (** [lexer.get_tokens(content)]: the call itself may raise (Pygments
      decodes and prepares the text in it) and returns an iterator over
      the tokens, which is consumed lazily and may end with an
      exception *)
  get_tokens : lexer → string → result (lazy (tokentype * string));
  (** [get_style_by_name(style)] *)
  get_style_by_name : string → result style;
  (** [style_cls.__module__] *)
  style_module : style → string;
  (** [HtmlFormatter(style=style_cls).get_style_defs(selector)] *)
  get_style_defs : style → string → string;
}.

Record Host := {
  (** the [try: import pygments ...] at the top of the module succeeded *)
  have_pygments : bool;
  (** [Mimeview(self.env).configured_modes_mapping('pygments')] *)
  configured_modes_mapping : gmap string (string * Z);
  (** the [pygments_default_style] option *)
  default_style : string;
  (** [pkg_resources.resource_filename] *)
  resource_filename : string → string → string;
  (** [http_date(datetime.fromtimestamp(os.path.getmtime(filename), localtz))] *)
  last_modified_of : string → result string;
}.

(** The request object: what the handlers read, and what they do to it. *)
Inductive header_value :=
| HStr (s : string)
| HInt (n : Z).

Inductive action :=
| send_response (code : Z)
| send_header (name : string) (value : header_value)
| end_headers
| write (content : string).

Record Request := {
  args : gmap string string;
  session : gmap string string;
  get_header : string → option string;
}.

(** ** [PygmentsRenderer] *)

Module PygmentsRenderer.

(** The component's state: [self._types], [None] until first use. *)
Record t := { _types : option (gmap string (string * Z)) }.

Definition QUALITY_RATIO : Z := 7.

Section methods.
Context (pygments : Pygments) (host : Host).

(** [get_all_lexers()]: [item[1:]] for the values of [LEXERS], then the
    plugin lexers. *)
Definition get_all_lexers : list lexer_info :=
  ((λ item, let '(_, name, aliases, filenames, mimetypes) := item in
            (name, aliases, filenames, mimetypes))
     <$> LEXERS_itervalues pygments)
  ++ find_plugin_lexers pygments.

(** [for mimetype in mimetypes:
       self._types[mimetype] = (aliases[0], self.QUALITY_RATIO)]
    on the dictionary [types]; an exception leaves the dictionary as it
    is at that point. *)
Fixpoint for_mimetypes (aliases mimetypes : list string)
    (types : gmap string (string * Z))
  : result unit * gmap string (string * Z) :=
  match mimetypes with
  | [] => (Return (), types)
  | mimetype :: mimetypes' =>
      match Py.first aliases with
      | Return alias0 =>
          for_mimetypes aliases mimetypes'
            (<[mimetype := (alias0, QUALITY_RATIO)]> types)
      | Raise e => (Raise e, types)
      end
  end.

(** [for _, aliases, _, mimetypes in get_all_lexers(): ...] *)
Fixpoint for_lexers (lexers : list lexer_info)
    (types : gmap string (string * Z))
  : result unit * gmap string (string * Z) :=
  match lexers with
  | [] => (Return (), types)
  | (_, aliases, _, mimetypes) :: lexers' =>
      match for_mimetypes aliases mimetypes types with
      | (Return _, types') => for_lexers lexers' types'
      | (Raise e, types') => (Raise e, types')
      end
  end.

(** [_init_types(self)]; [d.update(o)] is [o ∪ d]. *)
Definition _init_types (self : t) : result unit * t :=
  let types : gmap string (string * Z) := ∅ in
  if have_pygments host then
    match for_lexers get_all_lexers types with
    | (Return _, types') =>
        (Return (),
         {| _types := Some (configured_modes_mapping host ∪ types') |})
    | (Raise e, types') => (Raise e, {| _types := Some types' |})
    end
  else (Return (), {| _types := Some types |}).

(** [if self._types is None: self._init_types()] *)
Definition ensure_types (self : t) : result unit * t :=
  match _types self with
  | None => _init_types self
  | Some _ => (Return (), self)
  end.

(** [self._types[mimetype]] *)
Definition types_getitem (self : t) (mimetype : string)
  : result (string * Z) :=
  match _types self with
  | None => Raise TypeError
  | Some types =>
      match types !! mimetype with
      | Some entry => Return entry
      | None => Raise (KeyError mimetype)
      end
  end.

Definition is_KeyError (e : exn) : bool :=
  match e with KeyError _ => true | _ => false end.

Definition is_ValueError (e : exn) : bool :=
  match e with ValueError _ => true | _ => false end.

(** [get_quality_ratio(self, mimetype)] *)
Definition get_quality_ratio (self : t) (mimetype : string)
  : result Z * t :=
  match ensure_types self with
  | (Raise e, self') => (Raise e, self')
  | (Return _, self') =>
      (try_except
         (entry ← types_getitem self' mimetype; Return entry.2)
         is_KeyError
         (λ _, Return 0%Z),
       self')
  end.

(** [_generate(self, language, content)]; the names imported from
    Pygments are unbound when the import failed.  The two calls are made
    here; the stream returned is lazy: nothing of the tokens has been
    consumed when [_generate] returns. *)
Definition _generate (language content : string) : result (lazy Event) :=
  if have_pygments host then
    lexer ← get_lexer_by_name pygments language;
    tokens ← get_tokens pygments lexer content;
    Return (generate_lazy (_get_css_class pygments) tokens)
  else Raise (NameError "get_lexer_by_name").

(** The message of the exception [render] raises. *)
Definition no_lexer_found (mimetype : string) : string :=
  "No Pygments lexer found for mime-type '" +:+ mimetype +:+ "'.".

(** ['/pygments/%s.css' %
     req.session.get('pygments_style', self.default_style)] *)
Definition stylesheet_of (req : Request) : string :=
  "/pygments/"
  +:+ default (default_style host) (session req !! "pygments_style")
  +:+ ".css".

(** [render(self, context, mimetype, content)]: the result, the
    component afterwards, and the style sheets [add_stylesheet] added
    to the request.  The [try] block rebinds [mimetype] first, and the
    handler formats the message with the value [mimetype] has then.
    The stream is returned unconsumed: an exception that ends it is not
    raised inside the [try] block. *)
Definition render (self : t) (req : Request) (mimetype content : string)
  : result (lazy Event) * t * list string :=
  match ensure_types self with
  | (Raise e, self') => (Raise e, self', [])
  | (Return _, self') =>
      let rebound := Py.first (Py.split ";"%char (Some 1%nat) mimetype) in
      let mimetype_in_handler :=
        match rebound with
        | Return mimetype' => mimetype'
        | Raise _ => mimetype
        end in
      (try_except
         (mimetype' ← rebound;
          entry ← types_getitem self' mimetype';
          let language := entry.1 in
          _generate language content)
         (λ e, is_KeyError e || is_ValueError e)
         (λ _, Raise (Exception (no_lexer_found mimetype_in_handler))),
       self', [stylesheet_of req])
  end.

(** [process_request(self, req)]: the exception raised, or what was
    sent.  Strings are byte strings, so that [encode('utf-8')] is the
    identity and [len] the length.  The module does not import the name
    [HTTPNotFound] (it is not among the names of [trac.core], and only
    [IRequestHandler] is imported from [trac.web]), so the handler
    [raise HTTPNotFound(e)] raises a [NameError]. *)
Definition process_request (req : Request) : result (list action) :=
  style ← match args req !! "style" with
          | Some style => Return style
          | None => Raise (KeyError "style")
          end;
  style_cls ←
    (if have_pygments host then
       try_except (get_style_by_name pygments style)
         is_ValueError
         (λ _, Raise (NameError "HTTPNotFound"))
     else Raise (NameError "get_style_by_name"));
  let parts := Py.split "."%char None (style_module pygments style_cls) in
  name ← Py.last parts;
  let filename :=
    resource_filename host (Py.join "." (Py.init parts)) (name +:+ ".py") in
  last_modified ← last_modified_of host filename;
  if bool_decide (Some last_modified = get_header req "If-Modified-Since")
  then Return [send_response 304; end_headers]
  else
    let content :=
      Py.join (String "010" (String "010" ""))
        [get_style_defs pygments style_cls "div.code pre";
         get_style_defs pygments style_cls "table.code td"] in
    Return [send_response 200;
            send_header "Content-Type" (HStr "text/css; charset=utf-8");
            send_header "Last-Modified" (HStr last_modified);
            send_header "Content-Length" (HInt (Z.of_nat (String.length content)));
            write content].

End methods.

End PygmentsRenderer.

(** ** A concrete environment

    A small Pygments and host, used to run the definitions on concrete
    inputs.  The token types are a fragment of Pygments' hierarchy with the
    short CSS names of [pygments.token.STANDARD_TYPES], where both the root
    type [Token] and [Token.Text] have the empty name. *)

Module Example.

Inductive token := Token | Text | Keyword | Name | Comment.

#[global] Instance token_eq_dec : EqDecision token.
Proof. solve_decision. Defined.

Definition css (t : token) : string :=
  match t with
  | Token | Text => ""
  | Keyword => "k"
  | Name => "n"
  | Comment => "c"
  end.

Definition class_not_found (what name : string) : exn :=
  ValueError ("no " +:+ what +:+ " for alias '" +:+ name +:+ "' found").

(** Two built-in lexers and one plugin lexer that declares a MIME type
    of a built-in one. *)
Definition pygments : Pygments := {|
  tokentype := token;
  lexer := string;
  style := string;
  _get_css_class := css;
  LEXERS_itervalues :=
    [("pygments.lexers.agile", "Python", ["python"; "py"], ["*.py"; "*.pyw"],
      ["text/x-python"; "application/x-python"]);
     ("pygments.lexers.special", "Text only", ["text"], ["*.txt"],
      ["text/plain"])];
  find_plugin_lexers :=
    [("MyPython", ["mypython"], ["*.mpy"], ["text/x-python"])];
  get_lexer_by_name language :=
    if bool_decide (language ∈ ["python"; "py"; "text"; "mypython"])
    then Return language
    else if bool_decide (language = "broken")
    then Raise (OtherError "ImportError" "No module named broken")
    else Raise (class_not_found "lexer" language);
  get_tokens lexer content :=
    Return (if bool_decide (lexer = "text") then [(Text, content)]
            else [(Keyword, "def"); (Text, " "); (Name, content)],
            None);
  get_style_by_name name :=
    if bool_decide (name ∈ ["trac"; "default"])
    then Return name
    else Raise (class_not_found "style" name);
  style_module name := "pygments.styles." +:+ name;
  get_style_defs name selector := selector +:+ " { }";
|}.

Definition host (modes : gmap string (string * Z)) : Host := {|
  have_pygments := true;
  configured_modes_mapping := modes;
  default_style := "trac";
  resource_filename package name := package +:+ "/" +:+ name;
  last_modified_of filename := Return "Thu, 01 Jan 1970 00:00:00 GMT";
|}.

Definition fresh : PygmentsRenderer.t := {| PygmentsRenderer._types := None |}.

Definition request (style_arg : option string) : Request := {|
  args := from_option (λ s, {["style" := s]}) ∅ style_arg;
  session := ∅;
  get_header _ := None;
|}.

End Example.

(** ** Observations on event streams and token sequences *)

(** The payloads of the [TEXT] events, concatenated in emission order. *)
Fixpoint text_of (events : list Event) : string :=
  match events with
  | [] => ""
  | TEXT data _ :: events' => data +:+ text_of events'
  | _ :: events' => text_of events'
  end.

(** The token texts, concatenated in input order. *)
Fixpoint token_text {T} (tokens : list (T * string)) : string :=
  match tokens with
  | [] => ""
  | (_, value) :: tokens' => value +:+ token_text tokens'
  end.

(** [well_nested bound open events]: reading [events] with the stack
    [open] of the tags currently open, every [START] finds fewer than
    [bound] tags open, every [END] closes the tag opened last, and no tag
    is left open at the end. *)
Fixpoint well_nested (bound : nat) (open : list QName) (events : list Event)
  : bool :=
  match events with
  | [] => bool_decide (open = [])
  | START (tag, _) _ :: events' =>
      bool_decide (length open < bound)
      && well_nested bound (tag :: open) events'
  | END tag _ :: events' =>
      match open with
      | [] => false
      | top :: open' => bool_decide (top = tag) && well_nested bound open' events'
      end
  | TEXT _ _ :: events' => well_nested bound open events'
  end.

Definition is_START (e : Event) : bool :=
  match e with START _ _ => true | _ => false end.

Definition is_END (e : Event) : bool :=
  match e with END _ _ => true | _ => false end.

(** The number of events of a kind. *)
Fixpoint count (kind : Event → bool) (events : list Event) : nat :=
  match events with
  | [] => 0
  | e :: events' => (if kind e then 1 else 0) + count kind events'
  end.

(** Some two adjacent tokens have the same token type. *)
Fixpoint adjacent_same {T} `{EqDecision T} (tokens : list (T * string)) : bool :=
  match tokens with
  | [] => false
  | (a, _) :: tokens' =>
      match tokens' with
      | [] => false
      | (b, _) :: _ => bool_decide (a = b) || adjacent_same tokens'
      end
  end.

(** The [span] element of a CSS class, as the formatter opens it. *)
Definition span_open (css_class : string) : Event :=
  START (GenshiHtmlFormatter.span, [("class", css_class)]) GenshiHtmlFormatter.pos.

Definition span_close : Event :=
  END GenshiHtmlFormatter.span GenshiHtmlFormatter.pos.

Definition text (value : string) : Event :=
  TEXT value GenshiHtmlFormatter.pos.

(** ** Auxiliary notions for the proofs *)

Section iterations.
Import GenshiHtmlFormatter.
Context {tokentype : Type} (css : tokentype → string).

(** The three ways through the loop body. *)
Inductive iteration (lattrs : option Attrs) (a : tokentype) (value : string)
  : list Event * option Attrs → Prop :=
| same_attrs :
    lattrs = Some [("class", css a)] →
    iteration lattrs a value ([text value], lattrs)
| new_attrs :
    lattrs ≠ Some [("class", css a)] → value ≠ "" →
    iteration lattrs a value
      ((if opt_truthy seq_truthy lattrs then [span_close] else [])
         ++ [span_open (css a); text value],
       Some [("class", css a)])
| no_value :
    lattrs ≠ Some [("class", css a)] → value = "" →
    iteration lattrs a value ([], lattrs).

(** [lattrs] is [None] or the attributes of one class, hence truthy
    exactly when it is not [None]. *)
Definition lattrs_ok (lattrs : option Attrs) : Prop :=
  lattrs = None ∨ ∃ c : string, lattrs = Some [("class", c)].

(** The stack of open tags that corresponds to [lattrs]. *)
Definition open_of (lattrs : option Attrs) : list QName :=
  if truthy lattrs then [span] else [].

End iterations.

(** Every lexer that declares a MIME type has an alias. *)
Definition aliased (lexers : list lexer_info) : Prop :=
  ∀ name aliases filenames mimetypes,
    (name, aliases, filenames, mimetypes) ∈ lexers →
    mimetypes ≠ [] → aliases ≠ [].

(** No lexer of the list declares the MIME type. *)
Definition undeclared (mimetype : string) (lexers : list lexer_info) : Prop :=
  ∀ lx : lexer_info, lx ∈ lexers → mimetype ∉ lx.2.

(** Case analysis on a membership [H : x ∈ [a; b; ...]] in a literal
    list. *)
Ltac elements H :=
  repeat (apply elem_of_cons in H; destruct H as [H | H]);
  [simplify_eq .. | by apply elem_of_nil in H].

(** ** The other methods of [PygmentsRenderer] *)

(** What the preference panel and the request matcher read besides
    [Request]: [req.path_info] and [req.method]. *)
Record WebRequest := {
  base :> Request;
  path_info : string;
  method : string;
}.

(** [req.args[key] = value] *)
Definition set_arg (key value : string) (req : WebRequest) : WebRequest :=
  {| base := {| args := <[key := value]> (args req);
                session := session req;
                get_header := get_header req |};
     path_info := path_info req;
     method := method req |}.

(** [req.session[key] = value] *)
Definition set_session (key value : string) (req : WebRequest) : WebRequest :=
  {| base := {| args := args req;
                session := <[key := value]> (session req);
                get_header := get_header req |};
     path_info := path_info req;
     method := method req |}.

(** The style registry of Pygments as [get_all_styles] imports it
    ([from pygments.styles import find_plugin_styles, STYLE_MAP], which
    raises when it fails): the keys of [STYLE_MAP] in iteration order and
    the names that [find_plugin_styles()] yields.  [redirect] and
    [href_prefs] are [req.redirect] and [req.href.prefs] of the host. *)
Record Styles := {
  styles_import : result (list string * list string);
  redirect : string → result unit;
  href_prefs : option string → string;
}.

Module Re.

(** [\w] on a byte string without flags: [[a-zA-Z0-9_]]. *)
Definition is_word (c : Ascii.ascii) : bool :=
  let n := nat_of_ascii c in
  (((48 <=? n) && (n <=? 57)) || ((65 <=? n) && (n <=? 90))
   || ((97 <=? n) && (n <=? 122)) || (n =? 95))%nat.

(** The rest of [s] after the literal [p], when [s] starts with [p]. *)
Fixpoint literal (p s : string) : option string :=
  match p with
  | EmptyString => Some s
  | String c p' =>
      match s with
      | EmptyString => None
      | String d s' => if bool_decide (c = d) then literal p' s' else None
      end
  end.

(** The longest prefix of word characters, and the rest. *)
Fixpoint word (s : string) : string * string :=
  match s with
  | EmptyString => ("", "")
  | String c s' =>
      if is_word c then let '(w, rest) := word s' in (String c w, rest)
      else ("", s)
  end.

(** [re.match(r'/pygments/(\w+)\.css', path)], giving [match.group(1)].
    The match is anchored at the start only.  The greedy [\w+] takes the
    longest run of word characters and has to: after a shorter run the
    next character is a word character, not the dot. *)
Definition match_pygments_css (path : string) : option string :=
  rest ← literal "/pygments/" path;
  let '(name, rest') := word rest in
  if str_truthy name then _ ← literal ".css" rest'; Some name else None.

End Re.

Module Panel.

Section methods.
Context (pygments : Pygments) (host : Host) (registry : Styles).

(** [get_preference_panels(self, req)] *)
Definition get_preference_panels : list (string * string) :=
  if have_pygments host then [("pygments", "Pygments Theme")] else [].

(** [match_request(self, req)]: [Some true] for [True], [None] for the
    implicit [None]; and the request afterwards. *)
Definition match_request (req : WebRequest) : option bool * WebRequest :=
  if have_pygments host then
    match Re.match_pygments_css (path_info req) with
    | Some group1 => (Some true, set_arg "style" group1 req)
    | None => (None, req)
    end
  else (None, req).

(** [list(get_all_styles())] *)
Definition get_all_styles : result (list string) :=
  imported ← styles_import registry;
  Return (imported.1 ++ imported.2).

Definition dq : string := String "034" "".
Definition nl : string := String "010" "".

(** The class attribute [EXAMPLE]. *)
Definition EXAMPLE : string :=
  Py.join nl
    ["<!DOCTYPE html>";
     "<html lang=" +:+ dq +:+ "en" +:+ dq +:+ ">";
     "  <head>";
     "    <title>Hello, world!</title>";
     "    <script>";
     "      $(document).ready(function() {";
     "        $(" +:+ dq +:+ "h1" +:+ dq +:+ ").fadeIn(" +:+ dq +:+ "slow"
       +:+ dq +:+ ");";
     "      });";
     "    </script>";
     "  </head>";
     "  <body>";
     "    <h1>Hello, world!</h1>";
     "  </body>";
     "</html>"].

(** The template data [render_preference_panel] returns. *)
Record data := {
  output : lazy Event;
  selection : string;
  styles : list string;
}.

(** [render_preference_panel(self, req, panel)]: the result, the request
    afterwards, and the URLs [req.redirect] was called with.  [panel] is
    [None] or a string. *)
Definition render_preference_panel (req : WebRequest) (panel : option string)
  : result (string * data) * WebRequest * list string :=
  match get_all_styles with
  | Raise e => (Raise e, req, [])
  | Return styles =>
      let post := bool_decide (method req = "POST") in
      let req' :=
        if post then
          match args req !! "style" with
          | Some style =>
              if str_truthy style && bool_decide (style ∈ styles)
              then set_session "pygments_style" style req
              else req
          | None => req
          end
        else req in
      let url :=
        href_prefs registry
          (match panel with
           | Some p => if str_truthy p then Some p else None
           | None => None
           end) in
      let redirected := if post then redirect registry url else Return () in
      let urls := if post then [url] else [] in
      (_ ← redirected;
       output ← PygmentsRenderer._generate pygments host "html" EXAMPLE;
       Return ("prefs_pygments.html",
               {| output := output;
                  selection := default (default_style host)
                                 (session req' !! "pygments_style");
                  styles := styles |}),
       req', urls)
  end.

End methods.

End Panel.

(** The string has the character. *)
Fixpoint contains (c : Ascii.ascii) (s : string) : bool :=
  match s with
  | EmptyString => false
  | String d s' => bool_decide (d = c) || contains c s'
  end.

(** All characters of the string are word characters. *)
Fixpoint all_word (s : string) : bool :=
  match s with
  | EmptyString => true
  | String c s' => Re.is_word c && all_word s'
  end.

(** The status line, the body and the announced length of a response. *)
Definition status (actions : list action) : option Z :=
  match actions with
  | send_response code :: _ => Some code
  | _ => None
  end.

Fixpoint body (actions : list action) : string :=
  match actions with
  | [] => ""
  | write content :: actions' => content +:+ body actions'
  | _ :: actions' => body actions'
  end.

Fixpoint header (name : string) (actions : list action) : option header_value :=
  match actions with
  | [] => None
  | send_header name' value :: actions' =>
      if bool_decide (name' = name) then Some value else header name actions'
  | _ :: actions' => header name actions'
  end.

(** Some lexer of the list declares the MIME type. *)
Definition declared (mimetype : string) (lexers : list lexer_info) : Prop :=
  ∃ lx : lexer_info, lx ∈ lexers ∧ mimetype ∈ lx.2.

(** The entry of a MIME type has the default quality. *)
Definition default_entry (mimetype : string)
    (types : gmap string (string * Z)) : Prop :=
  ∃ alias : string, types !! mimetype = Some (alias, PygmentsRenderer.QUALITY_RATIO).

(** ** Further concrete environments *)

Module Edge.

(** A Pygments whose only lexer, a plugin, declares a MIME type and has
    no alias. *)
Definition pygments_noalias : Pygments := {|
  tokentype := Example.token;
  lexer := string;
  style := string;
  _get_css_class := Example.css;
  LEXERS_itervalues := [];
  find_plugin_lexers := [("Nameless", [], ["*.nl"], ["text/x-nameless"])];
  get_lexer_by_name := get_lexer_by_name Example.pygments;
  get_tokens := get_tokens Example.pygments;
  get_style_by_name := get_style_by_name Example.pygments;
  style_module := style_module Example.pygments;
  get_style_defs := get_style_defs Example.pygments;
|}.


(** A host on which the import of Pygments failed. *)
Definition host_without_pygments (modes : gmap string (string * Z)) : Host := {|
  have_pygments := false;
  configured_modes_mapping := modes;
  default_style := "trac";
  resource_filename := resource_filename (Example.host modes);
  last_modified_of := last_modified_of (Example.host modes);
|}.

(** A style registry with two built-in styles and a plugin style, on a
    host whose [redirect] ends the request by raising. *)
Definition registry : Styles := {|
  styles_import := Return (["trac"; "default"], ["solarized-dark"]);
  redirect url := Raise (OtherError "RequestDone" "");
  href_prefs panel := "/prefs" +:+ from_option (λ p, "/" +:+ p) "" panel;
|}.

Definition web_request (path verb : string) (style_arg : option string)
  : WebRequest := {|
  base := Example.request style_arg;
  path_info := path;
  method := verb;
|}.

End Edge.

(** ** Further observations on event streams *)

(** The payloads of the [TEXT] events, in emission order. *)
Fixpoint texts (events : list Event) : list string :=
  match events with
  | [] => []
  | TEXT data _ :: events' => data :: texts events'
  | _ :: events' => texts events'
  end.

(** The non-empty strings of a list, in order. *)
Fixpoint nonempty (l : list string) : list string :=
  match l with
  | [] => []
  | s :: l' => if str_truthy s then s :: nonempty l' else nonempty l'
  end.

(** Every [START] is directly followed by a [TEXT] with a non-empty
    payload. *)
Fixpoint spans_nonempty (events : list Event) : bool :=
  match events with
  | [] => true
  | START _ _ :: events' =>
      match events' with
      | TEXT data _ :: _ => str_truthy data && spans_nonempty events'
      | _ => false
      end
  | _ :: events' => spans_nonempty events'
  end.

(** Every [START] has other attributes than the [START] before it
    ([last], for the first one). *)
Fixpoint spans_alternate (last : option Attrs) (events : list Event) : bool :=
  match events with
  | [] => true
  | START (_, attrs) _ :: events' =>
      bool_decide (Some attrs ≠ last) && spans_alternate (Some attrs) events'
  | _ :: events' => spans_alternate last events'
  end.

(** * Properties *)

Local Open Scope nat_scope.

Lemma str_truthy_false (s : string) : str_truthy s = false → s = "".
Proof. by destruct s. Qed.

(** ** The token coalescer *)

Section coalescer.
Import GenshiHtmlFormatter.
Context {tokentype : Type} (css : tokentype → string).

Lemma loop_body_cases lattrs a value :
  iteration css lattrs a value (loop_body css lattrs (a, value)).
Proof.
  unfold loop_body. case_bool_decide as Hsame.
  - by apply same_attrs.
  - change (truthy value) with (str_truthy value).
    destruct (str_truthy value) eqn:Hvalue.
    + apply new_attrs; [by intros -> | by intros ->].
    + apply no_value; [by intros -> | by apply str_truthy_false].
Qed.

Lemma text_of_generate lattrs tokens :
  text_of (_generate css lattrs tokens) = token_text tokens.
Proof.
  revert lattrs. induction tokens as [|[a value] tokens IH]; intros lattrs.
  - simpl. by destruct (truthy lattrs).
  - cbn [_generate token_text].
    destruct (loop_body_cases lattrs a value) as [_ | _ _ | _ ->].
    + simpl. by rewrite IH.
    + destruct (opt_truthy seq_truthy lattrs); simpl; by rewrite IH.
    + simpl. by rewrite IH.
Qed.

Lemma well_nested_generate lattrs tokens :
  lattrs_ok lattrs →
  well_nested 1 (open_of lattrs) (_generate css lattrs tokens) = true.
Proof.
  revert lattrs. induction tokens as [|[a value] tokens IH]; intros lattrs Hok.
  - destruct Hok as [-> | [c ->]]; reflexivity.
  - cbn [_generate].
    destruct (loop_body_cases lattrs a value) as [_ | _ _ | _ _].
    + simpl. by apply IH.
    + specialize (IH (Some [("class", css a)])).
      destruct Hok as [-> | [c ->]]; simpl; apply IH; right; eauto.
    + simpl. by apply IH.
Qed.

Lemma count_app kind (l1 l2 : list Event) :
  count kind (l1 ++ l2) = count kind l1 + count kind l2.
Proof. induction l1 as [|e l1 IH]; simpl; [done | rewrite IH; lia]. Qed.

(** An iteration opens at most one span. *)
Lemma loop_body_opens lattrs tok :
  count is_START (loop_body css lattrs tok).1 ≤ 1.
Proof.
  destruct tok as [a value].
  destruct (loop_body_cases lattrs a value); simpl; [lia | | lia].
  destruct (opt_truthy seq_truthy lattrs); simpl; lia.
Qed.

(** Two iterations on the same token type open at most one span. *)
Lemma loop_body_twice lattrs a v1 v2 :
  count is_START (loop_body css lattrs (a, v1)).1
  + count is_START (loop_body css (loop_body css lattrs (a, v1)).2 (a, v2)).1
  ≤ 1.
Proof.
  destruct (loop_body_cases lattrs a v1) as [Hsame | Hnew _ | Hnew _];
    cbn [fst snd].
  - destruct (loop_body_cases lattrs a v2); [simpl; lia | done | done].
  - destruct (loop_body_cases (Some [("class", css a)]) a v2);
      [| done | done].
    destruct (opt_truthy seq_truthy lattrs); cbn; lia.
  - pose proof (loop_body_opens lattrs (a, v2)). cbn [count]. lia.
Qed.

Lemma generate_cons lattrs tok tokens :
  _generate css lattrs (tok :: tokens)
  = (loop_body css lattrs tok).1
      ++ _generate css (loop_body css lattrs tok).2 tokens.
Proof. simpl. by destruct (loop_body css lattrs tok). Qed.

Lemma opens_le lattrs tokens :
  count is_START (_generate css lattrs tokens) ≤ length tokens.
Proof.
  revert lattrs. induction tokens as [|tok tokens IH]; intros lattrs.
  - simpl. destruct (truthy lattrs); simpl; lia.
  - rewrite generate_cons, count_app.
    pose proof (loop_body_opens lattrs tok).
    specialize (IH (loop_body css lattrs tok).2). cbn [length]. lia.
Qed.

Lemma opens_lt `{EqDecision tokentype} lattrs tokens :
  adjacent_same tokens = true →
  count is_START (_generate css lattrs tokens) < length tokens.
Proof.
  revert lattrs.
  induction tokens as [|[a v1] tokens IH]; intros lattrs; [done |].
  destruct tokens as [|[b v2] tokens]; [done |].
  cbn [adjacent_same]. intros [Hab | Hrest]%orb_true_iff.
  - apply bool_decide_eq_true in Hab as <-.
    rewrite !generate_cons, !count_app.
    pose proof (loop_body_twice lattrs a v1 v2).
    pose proof (opens_le
      (loop_body css (loop_body css lattrs (a, v1)).2 (a, v2)).2 tokens).
    cbn [length]. lia.
  - rewrite generate_cons, count_app.
    pose proof (loop_body_opens lattrs (a, v1)).
    specialize (IH (loop_body css lattrs (a, v1)).2 Hrest).
    cbn [length] in *. lia.
Qed.

(** Every span that is opened is closed: with [lattrs] open on entry,
    the [END]s are the [START]s plus one. *)
Lemma closes_opens lattrs tokens :
  lattrs_ok lattrs →
  count is_END (_generate css lattrs tokens)
  = count is_START (_generate css lattrs tokens)
    + length (open_of lattrs).
Proof.
  revert lattrs. induction tokens as [|[a value] tokens IH]; intros lattrs Hok.
  - destruct Hok as [-> | [c ->]]; reflexivity.
  - cbn [_generate].
    destruct (loop_body_cases lattrs a value) as [_ | _ _ | _ _].
    + simpl. by apply IH.
    + specialize (IH (Some [("class", css a)])).
      destruct Hok as [-> | [c ->]]; simpl; rewrite IH by (right; eauto);
        simpl; lia.
    + simpl. by apply IH.
Qed.

End coalescer.

Import GenshiHtmlFormatter.

(** C1 (losslessness).  For every token sequence, the payloads of the
    [TEXT] events of [generate], concatenated in emission order, are the
    token texts concatenated in input order. *)
Theorem generate_lossless {tokentype} (css : tokentype → string)
    (tokens : list (tokentype * string)) :
  text_of (generate css tokens) = token_text tokens.
Proof. apply text_of_generate. Qed.

(** C2 (well-nestedness).  For every token sequence, the events of
    [generate] are well nested with depth at most one: a [START] only
    occurs while no span is open, an [END] only closes the span opened
    last, and no span is open after the last event. *)
Theorem generate_well_nested {tokentype} (css : tokentype → string)
    (tokens : list (tokentype * string)) :
  well_nested 1 [] (generate css tokens) = true.
Proof. apply (well_nested_generate css None). by left. Qed.

(** C3 (coalescing), as the code has it: the formatter compares CSS
    classes, so for token types [a] and [b] with different CSS classes and
    non-empty [x] and [z], the tokens [(a,x); (a,y); (b,z)] give one span
    for the two [a] tokens and a second span for [b]. *)
Theorem generate_coalesces {tokentype} (css : tokentype → string) (a b : tokentype)
    (x y z : string) :
  css a ≠ css b → x ≠ "" → z ≠ "" →
  generate css [(a, x); (a, y); (b, z)]
  = [span_open (css a); text x; text y; span_close;
     span_open (css b); text z; span_close].
Proof.
  intros Hcss Hx Hz. unfold generate. cbn [_generate].
  destruct (loop_body_cases css None a x) as [? | _ _ | _ ?]; [done | | done].
  destruct (loop_body_cases css (Some [("class", css a)]) a y)
    as [_ | ? _ | ? _]; [| done | done].
  destruct (loop_body_cases css (Some [("class", css a)]) b z)
    as [? | _ _ | _ ?]; [congruence | | done].
  reflexivity.
Qed.

Lemma generate_coalesces_witness :
  generate Example.css
    [(Example.Keyword, "x"); (Example.Keyword, "y"); (Example.Name, "z")]
  = [span_open "k"; text "x"; text "y"; span_close;
     span_open "n"; text "z"; span_close].
Proof.
  apply (generate_coalesces Example.css Example.Keyword Example.Name "x" "y" "z");
    discriminate.
Defined.

(** C3 as stated fails for two distinct token types with the same CSS
    class: the root type [Token] and [Token.Text] both have the empty
    class, and the three tokens come out in a single span. *)
Lemma generate_coalesces_same_css :
  Example.Token ≠ Example.Text
  ∧ generate Example.css
      [(Example.Token, "x"); (Example.Token, "y"); (Example.Text, "z")]
    = [span_open ""; text "x"; text "y"; text "z"; span_close]
  ∧ generate Example.css
      [(Example.Token, "x"); (Example.Token, "y"); (Example.Text, "z")]
    ≠ [span_open (Example.css Example.Token); text "x"; text "y"; span_close;
       span_open (Example.css Example.Text); text "z"; span_close].
Proof. split_and!; [discriminate | reflexivity | discriminate]. Qed.

(** C4 (empty text is no boundary), as the code has it: for token types
    [a] and [b] with different CSS classes and non-empty [x], the tokens
    [(a,x); (b,""); (a,y)] give one span of [a] with the texts [x] and
    [y]; the empty token yields nothing and leaves the span open. *)
Theorem generate_empty_no_boundary {tokentype} (css : tokentype → string)
    (a b : tokentype) (x y : string) :
  css a ≠ css b → x ≠ "" →
  generate css [(a, x); (b, ""); (a, y)]
  = [span_open (css a); text x; text y; span_close].
Proof.
  intros Hcss Hx. unfold generate. cbn [_generate].
  destruct (loop_body_cases css None a x) as [? | _ _ | _ ?]; [done | | done].
  destruct (loop_body_cases css (Some [("class", css a)]) b "")
    as [? | _ ? | _ _]; [congruence | done |].
  destruct (loop_body_cases css (Some [("class", css a)]) a y)
    as [_ | ? _ | ? _]; [| done | done].
  reflexivity.
Qed.

Lemma generate_empty_no_boundary_witness :
  generate Example.css
    [(Example.Keyword, "x"); (Example.Name, ""); (Example.Keyword, "y")]
  = [span_open "k"; text "x"; text "y"; span_close].
Proof.
  apply (generate_empty_no_boundary Example.css Example.Keyword Example.Name
           "x" "y"); discriminate.
Defined.

(** C4 as stated fails for two distinct token types with the same CSS
    class: the empty token then has the attributes of the open span and
    yields a [TEXT] event with the empty string. *)
Lemma generate_empty_same_css :
  Example.Text ≠ Example.Token
  ∧ generate Example.css
      [(Example.Text, "x"); (Example.Token, ""); (Example.Text, "y")]
    = [span_open ""; text "x"; text ""; text "y"; span_close]
  ∧ generate Example.css
      [(Example.Text, "x"); (Example.Token, ""); (Example.Text, "y")]
    ≠ [span_open (Example.css Example.Text); text "x"; text "y"; span_close].
Proof. split_and!; [discriminate | reflexivity | discriminate]. Qed.

(** C5 (no special class), what the code does: a non-empty token whose
    CSS class is the empty string is still wrapped in a span, with
    [class] set to the empty string, because [if attrs:] tests a sequence
    of one pair, which is never empty. *)
Theorem generate_empty_class_span {tokentype} (css : tokentype → string) (a : tokentype)
    (value : string) :
  css a = "" → value ≠ "" →
  generate css [(a, value)] = [span_open ""; text value; span_close].
Proof.
  intros Hcss Hvalue. unfold generate. cbn [_generate].
  destruct (loop_body_cases css None a value) as [? | _ _ | _ ?];
    [done | | done].
  rewrite Hcss. reflexivity.
Qed.

Lemma generate_empty_class_span_witness :
  generate Example.css [(Example.Text, "x")]
  = [span_open ""; text "x"; span_close].
Proof.
  apply (generate_empty_class_span Example.css Example.Text "x");
    [reflexivity | discriminate].
Defined.

(** C6 (span count).  For every token sequence, [generate] yields as many
    [END]s as [START]s, at most one [START] per token, and fewer [START]s
    than tokens when two adjacent tokens have the same token type. *)
Theorem generate_span_count {tokentype} `{EqDecision tokentype} (css : tokentype → string)
    (tokens : list (tokentype * string)) :
  count is_END (generate css tokens) = count is_START (generate css tokens)
  ∧ count is_START (generate css tokens) ≤ length tokens
  ∧ (adjacent_same tokens = true →
     count is_START (generate css tokens) < length tokens).
Proof.
  split_and!.
  - unfold generate. rewrite (closes_opens css None) by (by left).
    simpl. lia.
  - apply opens_le.
  - apply opens_lt.
Qed.

Lemma generate_span_count_witness :
  adjacent_same
    [(Example.Keyword, "x"); (Example.Keyword, "y"); (Example.Name, "z")] = true
  ∧ count is_START
      (generate Example.css
         [(Example.Keyword, "x"); (Example.Keyword, "y"); (Example.Name, "z")])
    < 3.
Proof.
  split; [reflexivity |].
  apply (generate_span_count Example.css
           [(Example.Keyword, "x"); (Example.Keyword, "y"); (Example.Name, "z")]).
  reflexivity.
Defined.

(** ** The grammar table *)

Section renderer.
Import PygmentsRenderer.
Context (pygments : Pygments) (host : Host).

(** [split] always returns at least one part, so that [[0]] and [[-1]]
    on its result do not raise. *)
Lemma split_nonempty sep maxsplit s : Py.split sep maxsplit s ≠ [].
Proof.
  destruct s as [|c s]; [done |]. simpl.
  destruct (bool_decide (c = sep) && negb (bool_decide (maxsplit = Some 0)));
    [done |].
  by destruct (Py.split sep maxsplit s).
Qed.

(** With a first alias, the inner loop returns, and the dictionary maps
    the MIME types of the lexer to that alias and is unchanged
    elsewhere. *)
Lemma for_mimetypes_alias alias aliases mimetypes
    (types : gmap string (string * Z)) :
  ∃ types' : gmap string (string * Z),
    for_mimetypes (alias :: aliases) mimetypes types = (Return (), types')
    ∧ ∀ mimetype : string,
        (mimetype ∈ mimetypes →
         types' !! mimetype = Some (alias, QUALITY_RATIO))
        ∧ (mimetype ∉ mimetypes → types' !! mimetype = types !! mimetype).
Proof.
  revert types. induction mimetypes as [|m mimetypes IH]; intros types.
  - exists types. split; [done |]. intros mimetype. split; [|done].
    by intros ?%elem_of_nil.
  - destruct (IH (<[m := (alias, QUALITY_RATIO)]> types))
      as (types' & Hrun & Hlookup).
    exists types'. split; [exact Hrun |]. intros mimetype.
    destruct (Hlookup mimetype) as [Hin Hout]. split.
    + intros [-> | Hrest]%elem_of_cons; [| by apply Hin].
      destruct (decide (m ∈ mimetypes)) as [Hm | Hm]; [by apply Hin |].
      destruct (Hlookup m) as [_ Hm']. rewrite Hm' by done.
      apply lookup_insert_eq.
    + intros [Hne Hrest]%not_elem_of_cons.
      rewrite Hout by done. by apply lookup_insert_ne.
Qed.

Lemma for_lexers_aliased lexers (types : gmap string (string * Z)) :
  aliased lexers →
  ∃ types' : gmap string (string * Z),
    for_lexers lexers types = (Return (), types')
    ∧ ∀ mimetype : string,
        (undeclared mimetype lexers →
         types' !! mimetype = types !! mimetype)
        ∧ (∀ before name alias aliases filenames mimetypes after,
             lexers
             = before ++ (name, alias :: aliases, filenames, mimetypes) :: after →
             mimetype ∈ mimetypes →
             undeclared mimetype after →
             types' !! mimetype = Some (alias, QUALITY_RATIO)).
Proof.
  revert types.
  induction lexers as [|[[[name0 aliases0] filenames0] mimetypes0] lexers IH];
    intros types Hal.
  - exists types. split; [done |]. intros mimetype. split; [done |].
    intros before ??????. by destruct before.
  - assert (aliased lexers) as Hal'.
    { intros n al fn ms Hin. apply (Hal n al fn ms).
      by apply list_elem_of_further. }
    assert (∃ types1 : gmap string (string * Z),
              for_mimetypes aliases0 mimetypes0 types = (Return (), types1)
              ∧ ∀ mimetype : string,
                  (∀ alias aliases, aliases0 = alias :: aliases →
                     mimetype ∈ mimetypes0 →
                     types1 !! mimetype = Some (alias, QUALITY_RATIO))
                  ∧ (mimetype ∉ mimetypes0 →
                     types1 !! mimetype = types !! mimetype))
      as (types1 & Hrun1 & Hlookup1).
    { destruct aliases0 as [|alias aliases].
      - destruct mimetypes0 as [|m mimetypes0].
        + exists types. split; [done |]. intros mimetype. split; [|done].
          by intros ?? _ ?%elem_of_nil.
        + exfalso.
          by apply (Hal name0 [] filenames0 (m :: mimetypes0));
            [apply list_elem_of_here | ..].
      - destruct (for_mimetypes_alias alias aliases mimetypes0 types)
          as (types1 & Hrun1 & Hlookup1).
        exists types1. split; [done |]. intros mimetype.
        destruct (Hlookup1 mimetype) as [Hin Hout]. split; [|done].
        intros ?? [= <- <-]. done. }
    destruct (IH types1 Hal') as (types' & Hrun & Hlookup).
    exists types'. split.
    { cbn [for_lexers]. by rewrite Hrun1. }
    intros mimetype. destruct (Hlookup mimetype) as [Hnone Hlast].
    destruct (Hlookup1 mimetype) as [Hin1 Hout1]. split.
    + intros Hun. rewrite Hnone.
      * apply Hout1.
        apply (Hun (name0, aliases0, filenames0, mimetypes0)).
        apply list_elem_of_here.
      * intros lx Hlx. apply Hun. by apply list_elem_of_further.
    + intros before name alias aliases filenames mimetypes after Heq Hin Hun.
      destruct before as [|lx0 before]; simplify_eq/=.
      * rewrite Hnone by done. by eapply Hin1.
      * by eapply Hlast.
Qed.

End renderer.

Import PygmentsRenderer.

Lemma for_lexers_app lexers1 lexers2 (types : gmap string (string * Z)) :
  for_lexers (lexers1 ++ lexers2) types
  = match for_lexers lexers1 types with
    | (Return _, types1) => for_lexers lexers2 types1
    | (Raise e, types1) => (Raise e, types1)
    end.
Proof.
  revert types.
  induction lexers1 as [|[[[name aliases] filenames] mimetypes] lexers1 IH];
    intros types; [done |].
  cbn [app for_lexers].
  destruct (for_mimetypes aliases mimetypes types) as [[[]|e] types1];
    [apply IH | done].
Qed.

(** A lexer that declares a MIME type and has no alias stops the
    construction of the table at [aliases[0]]: the component is left with
    the entries of the lexers before it, and without the configured
    modes. *)
Lemma init_types_without_alias (pygments : Pygments) (host : Host)
    (self : PygmentsRenderer.t) before name filenames m ms after :
  have_pygments host = true →
  get_all_lexers pygments = before ++ (name, [], filenames, m :: ms) :: after →
  aliased before →
  ∃ types : gmap string (string * Z),
    for_lexers before ∅ = (Return (), types)
    ∧ _init_types pygments host self
      = (Raise IndexError, {| _types := Some types |}).
Proof.
  intros Hhave Hlexers Hal.
  destruct (for_lexers_aliased before ∅ Hal) as (types & Hrun & _).
  exists types. split; [done |].
  unfold _init_types. rewrite Hhave, Hlexers, for_lexers_app, Hrun.
  reflexivity.
Qed.

(** C7 (quality sentinel), where the code breaks it.  On a component
    whose table is not built yet, with a lexer that declares a MIME type
    and has no alias, [get_quality_ratio] raises the [IndexError] of
    [aliases[0]] for every MIME type, also for one that no lexer declares
    and no mode is configured for, instead of returning 0: the handler
    covers the [KeyError] of the lookup only. *)
Theorem get_quality_ratio_index_error (pygments : Pygments) (host : Host)
    (self : PygmentsRenderer.t) (before after : list lexer_info)
    (name m : string) (filenames ms : list string) (mimetype : string) :
  have_pygments host = true →
  _types self = None →
  get_all_lexers pygments = before ++ (name, [], filenames, m :: ms) :: after →
  aliased before →
  ∃ types : gmap string (string * Z),
    for_lexers before ∅ = (Return (), types)
    ∧ get_quality_ratio pygments host self mimetype
      = (Raise IndexError, {| _types := Some types |}).
Proof.
  intros Hhave Hfresh Hlexers Hal.
  destruct (init_types_without_alias pygments host self _ _ _ _ _ _
              Hhave Hlexers Hal) as (types & Hrun & Hinit).
  exists types. split; [done |].
  unfold get_quality_ratio, ensure_types. by rewrite Hfresh, Hinit.
Qed.

Lemma get_quality_ratio_index_error_witness :
  undeclared "text/x-unknown" (get_all_lexers Edge.pygments_noalias)
  ∧ configured_modes_mapping (Example.host ∅) !! "text/x-unknown" = None
  ∧ get_quality_ratio Edge.pygments_noalias (Example.host ∅) Example.fresh
      "text/x-unknown"
    = (Raise IndexError, {| _types := Some ∅ |}).
Proof.
  split_and!.
  - intros lx Hlx. vm_compute in Hlx. elements Hlx; compute_done.
  - reflexivity.
  - destruct (get_quality_ratio_index_error Edge.pygments_noalias
                (Example.host ∅) Example.fresh [] [] "Nameless"
                "text/x-nameless" ["*.nl"] [] "text/x-unknown")
      as (types & Hrun & Hcall);
      [reflexivity | reflexivity | reflexivity | by intros ???? ?%elem_of_nil |].
    injection Hrun as <-. exact Hcall.
Defined.

(** C8 (table construction), as the code has it.  With Pygments
    available and an alias for every lexer that declares a MIME type,
    [_init_types] returns, and in the table a MIME type with a configured
    mode has exactly the configured [(mode, quality)]; any other MIME type
    has [(first alias, 7)] of the last lexer of [get_all_lexers] that
    declares it, and no entry when no lexer declares it. *)
Theorem init_types_table (pygments : Pygments) (host : Host)
    (self : PygmentsRenderer.t) :
  have_pygments host = true →
  aliased (get_all_lexers pygments) →
  ∃ types : gmap string (string * Z),
    _init_types pygments host self = (Return (), {| _types := Some types |})
    ∧ ∀ mimetype : string,
        match configured_modes_mapping host !! mimetype with
        | Some entry => types !! mimetype = Some entry
        | None =>
            (∀ before name alias aliases filenames mimetypes after,
               get_all_lexers pygments
               = before ++ (name, alias :: aliases, filenames, mimetypes) :: after →
               mimetype ∈ mimetypes →
               undeclared mimetype after →
               types !! mimetype = Some (alias, 7%Z))
            ∧ (undeclared mimetype (get_all_lexers pygments) →
               types !! mimetype = None)
        end.
Proof.
  intros Hhave Hal.
  destruct (for_lexers_aliased (get_all_lexers pygments) ∅ Hal)
    as (types' & Hrun & Hlookup).
  exists (configured_modes_mapping host ∪ types'). split.
  { unfold _init_types. by rewrite Hhave, Hrun. }
  intros mimetype. destruct (Hlookup mimetype) as [Hnone Hlast].
  destruct (configured_modes_mapping host !! mimetype) as [entry|] eqn:Hconf.
  - by apply lookup_union_Some_l.
  - rewrite lookup_union_r by done. split.
    + apply Hlast.
    + intros Hun. by rewrite Hnone.
Qed.

Lemma init_types_table_witness :
  ∃ types : gmap string (string * Z),
    _init_types Example.pygments
      (Example.host {["text/plain" := ("python", 9%Z)]}) Example.fresh
    = (Return (), {| _types := Some types |})
    ∧ types !! "text/plain" = Some ("python", 9%Z)
    ∧ types !! "application/x-python" = Some ("python", 7%Z)
    ∧ types !! "text/x-python" = Some ("mypython", 7%Z)
    ∧ types !! "text/x-unknown" = None.
Proof.
  destruct (init_types_table Example.pygments
              (Example.host {["text/plain" := ("python", 9%Z)]}) Example.fresh)
    as (types & Hrun & Hlookup).
  - reflexivity.
  - intros name aliases filenames mimetypes Hin _ ->.
    vm_compute in Hin. by elements Hin.
  - exists types. split; [exact Hrun |]. split_and!.
    + apply (Hlookup "text/plain").
    + pose proof (Hlookup "application/x-python") as [Hlast _].
      eapply (Hlast []); [reflexivity | compute_done |].
      intros lx Hlx. vm_compute in Hlx.
      elements Hlx; compute_done.
    + pose proof (Hlookup "text/x-python") as [Hlast _].
      eapply (Hlast [_; _]); [reflexivity | compute_done |].
      intros lx Hlx. by elements Hlx.
    + pose proof (Hlookup "text/x-unknown") as [_ Hnone].
      apply Hnone. intros lx Hlx. vm_compute in Hlx.
      elements Hlx; compute_done.
Defined.

(** C8 as stated fails when two lexers declare the same MIME type: the
    built-in Python lexer declares [text/x-python] and no mode is
    configured for it, yet the table holds the alias of the plugin lexer,
    which is enumerated later. *)
Lemma init_types_shared_mimetype :
  ("Python", ["python"; "py"], ["*.py"; "*.pyw"],
   ["text/x-python"; "application/x-python"])
    ∈ get_all_lexers Example.pygments
  ∧ configured_modes_mapping (Example.host ∅) !! "text/x-python" = None
  ∧ ∃ types : gmap string (string * Z),
      _init_types Example.pygments (Example.host ∅) Example.fresh
      = (Return (), {| _types := Some types |})
      ∧ types !! "text/x-python" = Some ("mypython", 7%Z)
      ∧ types !! "text/x-python" ≠ Some ("python", 7%Z).
Proof.
  split_and!.
  - apply list_elem_of_here.
  - reflexivity.
  - eexists. split_and!; [reflexivity | by vm_compute | by vm_compute].
Qed.




(** C10 (unknown theme), what the code does.  For a request whose
    [style] argument the style registry does not know
    ([get_style_by_name] raises its [ClassNotFound], a [ValueError]),
    the handler [raise HTTPNotFound(e)] runs, and since the module never
    imports [HTTPNotFound], [process_request] raises a [NameError]
    instead of the "not found" response. *)
Theorem process_request_unknown_style (pygments : Pygments) (host : Host)
    (req : Request) (style msg : string) :
  have_pygments host = true →
  args req !! "style" = Some style →
  get_style_by_name pygments style = Raise (ValueError msg) →
  process_request pygments host req = Raise (NameError "HTTPNotFound").
Proof.
  intros Hhave Hstyle Hunknown. unfold process_request.
  rewrite Hstyle, Hhave. cbn. by rewrite Hunknown.
Qed.

Lemma process_request_unknown_style_witness :
  process_request Example.pygments (Example.host ∅)
    (Example.request (Some "nope"))
  = Raise (NameError "HTTPNotFound").
Proof.
  apply (process_request_unknown_style Example.pygments (Example.host ∅)
           (Example.request (Some "nope")) "nope"
           "no style for alias 'nope' found");
    [reflexivity | by vm_compute | reflexivity].
Defined.

(** * Further properties of the coalescer *)

Lemma str_truthy_true (s : string) : s ≠ "" → str_truthy s = true.
Proof. by destruct s. Qed.

Section coalescer_more.
Import GenshiHtmlFormatter.
Context {tokentype : Type} (css : tokentype → string).

Lemma generate_none_empty tokens :
  Forall (λ tok : tokentype * string, tok.2 = "") tokens →
  _generate css None tokens = [].
Proof.
  induction 1 as [|[a value] tokens Hvalue _ IH]; [done |].
  cbn [_generate]. simpl in Hvalue.
  destruct (loop_body_cases css None a value) as [? | _ ? | _ _];
    [done | done | exact IH].
Qed.

Lemma generate_same_class c tokens :
  Forall (λ tok : tokentype * string, css tok.1 = c) tokens →
  _generate css (Some [("class", c)]) tokens
  = (text <$> tokens.*2) ++ [span_close].
Proof.
  induction 1 as [|[a value] tokens Hc _ IH]; [done |].
  cbn [_generate]. simpl in Hc. subst c.
  destruct (loop_body_cases css (Some [("class", css a)]) a value)
    as [_ | ? _ | ? _]; [| done | done].
  simpl. by rewrite IH.
Qed.

Lemma generate_css_image lattrs tokens :
  _generate css lattrs tokens
  = _generate (λ c : string, c) lattrs
      ((λ tok : tokentype * string, (css tok.1, tok.2)) <$> tokens).
Proof.
  revert lattrs. induction tokens as [|[a value] tokens IH]; intros lattrs;
    [done |].
  cbn [_generate fmap list_fmap].
  change (loop_body (λ c : string, c) lattrs (css (a, value).1, (a, value).2))
    with (loop_body css lattrs (a, value)).
  destruct (loop_body css lattrs (a, value)) as [out lattrs'].
  by rewrite IH.
Qed.

Lemma texts_generate lattrs tokens :
  nonempty (texts (_generate css lattrs tokens)) = nonempty tokens.*2.
Proof.
  revert lattrs. induction tokens as [|[a value] tokens IH]; intros lattrs.
  - simpl. by destruct (truthy lattrs).
  - cbn [_generate fmap list_fmap snd nonempty].
    destruct (loop_body_cases css lattrs a value) as [_ | _ _ | _ ->].
    + simpl. by rewrite IH.
    + destruct (opt_truthy seq_truthy lattrs); simpl; by rewrite IH.
    + simpl. by rewrite IH.
Qed.

Lemma spans_nonempty_generate lattrs tokens :
  spans_nonempty (_generate css lattrs tokens) = true.
Proof.
  revert lattrs. induction tokens as [|[a value] tokens IH]; intros lattrs.
  - simpl. by destruct (truthy lattrs).
  - cbn [_generate].
    destruct (loop_body_cases css lattrs a value) as [_ | _ Hvalue | _ _].
    + simpl. apply IH.
    + apply str_truthy_true in Hvalue.
      destruct (opt_truthy seq_truthy lattrs); simpl; rewrite Hvalue; apply IH.
    + simpl. apply IH.
Qed.

Lemma spans_alternate_generate lattrs tokens :
  spans_alternate lattrs (_generate css lattrs tokens) = true.
Proof.
  revert lattrs. induction tokens as [|[a value] tokens IH]; intros lattrs.
  - simpl. by destruct (truthy lattrs).
  - cbn [_generate].
    destruct (loop_body_cases css lattrs a value) as [_ | Hnew _ | _ _].
    + simpl. apply IH.
    + unfold span_open, span_close, text.
      destruct (opt_truthy seq_truthy lattrs); cbn [app spans_alternate];
        (apply andb_true_intro; split;
         [apply bool_decide_eq_true; by intros <- | apply IH]).
    + simpl. apply IH.
Qed.

Lemma starts_generate lattrs tokens :
  Forall (λ e : Event,
            is_START e = true →
            ∃ a value, (a, value) ∈ tokens ∧ value ≠ ""
                       ∧ e = span_open (css a))
    (_generate css lattrs tokens).
Proof.
  revert lattrs. induction tokens as [|[a value] tokens IH]; intros lattrs.
  - simpl. destruct (truthy lattrs); repeat constructor; done.
  - cbn [_generate].
    assert (Forall (λ e : Event,
                      is_START e = true →
                      ∃ a0 value0, (a0, value0) ∈ (a, value) :: tokens
                                   ∧ value0 ≠ "" ∧ e = span_open (css a0))
              (_generate css (loop_body css lattrs (a, value)).2 tokens))
      as Hrest.
    { eapply Forall_impl; [apply IH |]. intros e He Hstart.
      destruct (He Hstart) as (a0 & value0 & Hin & Hne & ->).
      exists a0, value0. split_and!; [by apply list_elem_of_further | done..]. }
    destruct (loop_body_cases css lattrs a value) as [_ | _ Hvalue | _ _];
      cbn [snd] in Hrest.
    + simpl. by constructor.
    + apply Forall_app. split; [apply Forall_app; split | exact Hrest].
      * destruct (opt_truthy seq_truthy lattrs); repeat constructor; done.
      * repeat constructor; [| done]. intros _. exists a, value.
        split_and!; [apply list_elem_of_here | done..].
    + done.
Qed.

End coalescer_more.

(** X1.  Tokens that all have empty text give no events at all: no span
    is opened for them, whatever their token types. *)
Theorem generate_all_empty {tokentype} (css : tokentype → string)
    (tokens : list (tokentype * string)) :
  Forall (λ tok : tokentype * string, tok.2 = "") tokens →
  generate css tokens = [].
Proof. apply generate_none_empty. Qed.

Lemma generate_all_empty_witness :
  generate Example.css [(Example.Keyword, ""); (Example.Name, "")] = [].
Proof.
  apply (generate_all_empty Example.css
           [(Example.Keyword, ""); (Example.Name, "")]).
  repeat constructor.
Defined.

(** X2.  A run of tokens of one CSS class whose first text is not empty
    gives exactly one span, holding one [TEXT] per token (also for the
    later tokens with empty text). *)
Theorem generate_one_class {tokentype} (css : tokentype → string)
    (c : string) (a : tokentype) (value : string)
    (tokens : list (tokentype * string)) :
  css a = c → value ≠ "" →
  Forall (λ tok : tokentype * string, css tok.1 = c) tokens →
  generate css ((a, value) :: tokens)
  = span_open c :: text value :: (text <$> tokens.*2) ++ [span_close].
Proof.
  intros <- Hvalue Hrun. unfold generate. rewrite generate_cons.
  destruct (loop_body_cases css None a value) as [? | _ _ | _ ?];
    [done | | done].
  cbn [fst snd opt_truthy app].
  by rewrite (generate_same_class css (css a)).
Qed.

Lemma generate_one_class_witness :
  generate Example.css
    [(Example.Text, "a"); (Example.Token, ""); (Example.Text, "b")]
  = [span_open ""; text "a"; text ""; text "b"; span_close].
Proof.
  apply (generate_one_class Example.css "" Example.Text "a"
           [(Example.Token, ""); (Example.Text, "b")]);
    [reflexivity | discriminate | repeat constructor].
Defined.

(** X3.  The events depend on the token types through their CSS classes
    only: replacing every token type by its class (and taking the class
    itself as the class of a class) gives the same events. *)
Theorem generate_only_css {tokentype} (css : tokentype → string)
    (tokens : list (tokentype * string)) :
  generate css tokens
  = generate (λ c : string, c)
      ((λ tok : tokentype * string, (css tok.1, tok.2)) <$> tokens).
Proof. apply generate_css_image. Qed.

(** X4.  Token boundaries are kept: the non-empty [TEXT] payloads are, in
    order, the non-empty token texts; texts are never merged or split. *)
Theorem generate_keeps_texts {tokentype} (css : tokentype → string)
    (tokens : list (tokentype * string)) :
  nonempty (texts (generate css tokens)) = nonempty tokens.*2.
Proof. apply texts_generate. Qed.

(** X5.  No span is empty: every [START] is directly followed by a
    [TEXT] with a non-empty payload. *)
Theorem generate_spans_nonempty {tokentype} (css : tokentype → string)
    (tokens : list (tokentype * string)) :
  spans_nonempty (generate css tokens) = true.
Proof. apply spans_nonempty_generate. Qed.

(** X6.  Two spans in a row never have the same attributes: every
    [START] has another CSS class than the [START] before it. *)
Theorem generate_spans_alternate {tokentype} (css : tokentype → string)
    (tokens : list (tokentype * string)) :
  spans_alternate None (generate css tokens) = true.
Proof. apply spans_alternate_generate. Qed.

(** X7.  Every [START] is a [span] whose only attribute is [class], and
    the class is the CSS class of an input token with non-empty text. *)
Theorem generate_span_classes {tokentype} (css : tokentype → string)
    (tokens : list (tokentype * string)) :
  Forall (λ e : Event,
            is_START e = true →
            ∃ a value, (a, value) ∈ tokens ∧ value ≠ ""
                       ∧ e = span_open (css a))
    (generate css tokens).
Proof. apply starts_generate. Qed.

(** * Further properties of the renderer *)

Section renderer_more.
Context (pygments : Pygments) (host : Host).

Lemma for_mimetypes_raise aliases mimetypes
    (types types' : gmap string (string * Z)) e :
  for_mimetypes aliases mimetypes types = (Raise e, types') →
  aliases = [] ∧ mimetypes ≠ []
  ∧ e = IndexError.
Proof.
  destruct aliases as [|alias aliases].
  - destruct mimetypes; [done |]. simpl. by intros [= <- _].
  - destruct (for_mimetypes_alias alias aliases mimetypes types)
      as (types1 & -> & _). done.
Qed.

Lemma for_lexers_raise lexers (types types' : gmap string (string * Z)) e :
  for_lexers lexers types = (Raise e, types') →
  e = IndexError
  ∧ ∃ name filenames mimetypes,
      (name, [], filenames, mimetypes) ∈ lexers ∧ mimetypes ≠ [].
Proof.
  revert types.
  induction lexers as [|[[[name aliases] filenames] mimetypes] lexers IH];
    intros types; [done |].
  cbn [for_lexers].
  destruct (for_mimetypes aliases mimetypes types) as [[[]|e1] types1] eqn:Hrun.
  - intros Hrest. destruct (IH _ Hrest) as (-> & n & fn & ms & Hin & Hms).
    split; [done |]. exists n, fn, ms. split; [| done].
    by apply list_elem_of_further.
  - intros [= <- <-].
    destruct (for_mimetypes_raise _ _ _ _ _ Hrun) as (-> & Hms & ->).
    split; [done |]. exists name, filenames, mimetypes.
    split; [apply list_elem_of_here | done].
Qed.

Lemma for_lexers_quality lexers (types types' : gmap string (string * Z))
    (mimetype : string) :
  for_lexers lexers types = (Return (), types') →
  default_entry mimetype types ∨ declared mimetype lexers →
  default_entry mimetype types'.
Proof.
  revert types.
  induction lexers as [|[[[name aliases] filenames] mimetypes] lexers IH];
    intros types.
  - intros [= <-] [? | (lx & []%elem_of_nil & _)]. done.
  - cbn [for_lexers].
    destruct (for_mimetypes aliases mimetypes types) as [[[]|e1] types1] eqn:Hrun;
      [| done].
    intros Hrest Hbefore. apply (IH _ Hrest).
    assert (default_entry mimetype types1
            ∨ ((mimetype ∉ mimetypes)
               ∧ types1 !! mimetype = types !! mimetype)) as Hhead.
    { destruct aliases as [|alias aliases].
      - destruct mimetypes; [| done]. injection Hrun as <-.
        right. split; [by intros ?%elem_of_nil | done].
      - destruct (for_mimetypes_alias alias aliases mimetypes types)
          as (types2 & Hrun2 & Hlookup).
        rewrite Hrun2 in Hrun. injection Hrun as <-.
        destruct (Hlookup mimetype) as [Hin Hout].
        destruct (decide (mimetype ∈ mimetypes)) as [Hm | Hm].
        + left. exists alias. by apply Hin.
        + right. split; [done | by apply Hout]. }
    destruct Hhead as [? | [Hout Hsame]]; [by left |].
    destruct Hbefore as [[alias Halias] | (lx & Hlx & Hm)].
    + left. exists alias. by rewrite Hsame.
    + apply elem_of_cons in Hlx as [-> | Hlx]; [done |].
      right. by exists lx.
Qed.

Lemma ensure_types_table self r self' :
  ensure_types pygments host self = (r, self') →
  ∃ types : gmap string (string * Z), _types self' = Some types.
Proof.
  unfold ensure_types, _init_types.
  destruct (_types self) as [types|] eqn:Htypes.
  - intros [= _ <-]. eauto.
  - destruct (have_pygments host).
    + destruct (for_lexers _ _) as [[[]|e] types'];
        intros [= _ <-]; simpl; eauto.
    + intros [= _ <-]. simpl. eauto.
Qed.

Lemma ensure_types_raise self e self' :
  ensure_types pygments host self = (Raise e, self') →
  _types self = None ∧ have_pygments host = true
  ∧ e = IndexError
  ∧ ∃ name filenames mimetypes,
      (name, [], filenames, mimetypes) ∈ get_all_lexers pygments
      ∧ mimetypes ≠ [].
Proof.
  unfold ensure_types, _init_types.
  destruct (_types self) as [types|]; [done |].
  destruct (have_pygments host); [| done].
  destruct (for_lexers _ _) as [[[]|e1] types'] eqn:Hrun; [done |].
  intros [= <- _]. destruct (for_lexers_raise _ _ _ _ Hrun) as [-> ?]. done.
Qed.

Lemma ensure_types_again self r self' :
  ensure_types pygments host self = (r, self') →
  ensure_types pygments host self' = (Return (), self').
Proof.
  intros (types & Htypes)%ensure_types_table.
  unfold ensure_types. by rewrite Htypes.
Qed.

Lemma get_quality_ratio_ensured self self' mimetype :
  ensure_types pygments host self = (Return (), self') →
  ∃ quality : Z,
    get_quality_ratio pygments host self mimetype = (Return quality, self').
Proof.
  intros Hensure. unfold get_quality_ratio. rewrite Hensure.
  unfold types_getitem.
  destruct (ensure_types_table _ _ _ Hensure) as (types & ->).
  destruct (types !! mimetype) as [[mode quality]|]; simpl; eauto.
Qed.

Lemma split_zero sep s : Py.split sep (Some 0) s = [s].
Proof.
  induction s as [|c s IH]; [done |]. simpl.
  rewrite andb_false_r. by rewrite IH.
Qed.

Lemma split_no_sep sep maxsplit s :
  contains sep s = false → Py.split sep maxsplit s = [s].
Proof.
  induction s as [|c s IH]; [done |]. simpl.
  intros [Hc Hs]%orb_false_iff. rewrite Hc. simpl. by rewrite IH.
Qed.

Lemma split_once sep s rest :
  contains sep s = false →
  Py.split sep (Some 1) (s +:+ String sep rest) = [s; rest].
Proof.
  induction s as [|c s IH].
  - intros _. simpl. rewrite bool_decide_eq_true_2 by done. simpl.
    by rewrite split_zero.
  - simpl. intros [Hc Hs]%orb_false_iff. rewrite Hc. simpl. by rewrite IH.
Qed.

End renderer_more.

(** X8.  The table is built once: after any call of
    [get_quality_ratio], whatever it gave, a further call for any MIME
    type returns a quality, does not raise and leaves the component as it
    is; a returned quality is returned again. *)
Theorem get_quality_ratio_built_once (pygments : Pygments) (host : Host)
    (self self' : PygmentsRenderer.t) (mimetype : string) (r : result Z) :
  get_quality_ratio pygments host self mimetype = (r, self') →
  (∀ mimetype' : string,
     ∃ quality : Z,
       get_quality_ratio pygments host self' mimetype'
       = (Return quality, self'))
  ∧ (∀ quality : Z,
       r = Return quality →
       get_quality_ratio pygments host self' mimetype = (r, self')).
Proof.
  intros Hcall.
  assert (∃ r0, ensure_types pygments host self = (r0, self')) as [r0 Hensure].
  { unfold get_quality_ratio in Hcall.
    destruct (ensure_types pygments host self) as [[[]|e] self1];
      injection Hcall as _ <-; eauto. }
  pose proof (ensure_types_again _ _ _ _ _ Hensure) as Hagain. split.
  - intros mimetype'. by apply get_quality_ratio_ensured.
  - intros quality ->. unfold get_quality_ratio in *. rewrite Hagain.
    destruct r0 as [[]|e]; rewrite Hensure in Hcall; [| done].
    by injection Hcall as ->.
Qed.

Lemma get_quality_ratio_built_once_witness :
  ∃ self' : PygmentsRenderer.t,
    get_quality_ratio Example.pygments (Example.host ∅) Example.fresh
      "text/plain"
    = (Return 7%Z, self')
    ∧ get_quality_ratio Example.pygments (Example.host ∅) self' "text/plain"
      = (Return 7%Z, self').
Proof.
  eexists. split; [by vm_compute |].
  eapply (get_quality_ratio_built_once Example.pygments (Example.host ∅)
            Example.fresh _ "text/plain" (Return 7%Z));
    [by vm_compute | reflexivity].
Defined.



(** X10.  Without Pygments the table is built empty and the configured
    modes are not read: on a component not yet initialised every quality
    is 0, and [render] raises the "No Pygments lexer found" exception for
    every MIME type and content. *)
Theorem without_pygments (pygments : Pygments) (host : Host)
    (self : PygmentsRenderer.t) (req : Request) (mimetype content : string) :
  have_pygments host = false →
  _types self = None →
  get_quality_ratio pygments host self mimetype
  = (Return 0%Z, {| _types := Some ∅ |})
  ∧ ∃ mimetype' : string,
      render pygments host self req mimetype content
      = (Raise (Exception (no_lexer_found mimetype')),
         {| _types := Some ∅ |}, [stylesheet_of host req]).
Proof.
  intros Hhave Hfresh.
  assert (ensure_types pygments host self = (Return (), {| _types := Some ∅ |}))
    as Hensure.
  { unfold ensure_types, _init_types. by rewrite Hfresh, Hhave. }
  split.
  - unfold get_quality_ratio. by rewrite Hensure.
  - unfold render. rewrite Hensure.
    destruct (Py.split ";" (Some 1) mimetype) as [|mimetype' rest] eqn:Hsplit;
      [by apply split_nonempty in Hsplit |].
    exists mimetype'. reflexivity.
Qed.

Lemma without_pygments_witness :
  get_quality_ratio Example.pygments
    (Edge.host_without_pygments {["text/plain" := ("text", 9%Z)]})
    Example.fresh "text/plain"
  = (Return 0%Z, {| _types := Some ∅ |}).
Proof.
  apply (without_pygments Example.pygments
           (Edge.host_without_pygments {["text/plain" := ("text", 9%Z)]})
           Example.fresh (Example.request None) "text/plain" "");
    reflexivity.
Defined.

(** X11.  The quality of a MIME type on a component not yet initialised,
    with Pygments and an alias for every lexer that declares a MIME type:
    the configured quality when a mode is configured for it, else 7 when
    some lexer declares it, else 0. *)
Theorem get_quality_ratio_fresh (pygments : Pygments) (host : Host)
    (self : PygmentsRenderer.t) (mimetype : string) :
  have_pygments host = true →
  aliased (get_all_lexers pygments) →
  _types self = None →
  ∃ (quality : Z) (self' : PygmentsRenderer.t),
    get_quality_ratio pygments host self mimetype = (Return quality, self')
    ∧ match configured_modes_mapping host !! mimetype with
      | Some (_, configured) => quality = configured
      | None =>
          (declared mimetype (get_all_lexers pygments) → quality = 7%Z)
          ∧ (undeclared mimetype (get_all_lexers pygments) → quality = 0%Z)
      end.
Proof.
  intros Hhave Hal Hfresh.
  destruct (for_lexers_aliased (get_all_lexers pygments) ∅ Hal)
    as (types & Hrun & Hlookup).
  exists (default 0%Z
            (snd <$> (configured_modes_mapping host ∪ types) !! mimetype)),
    {| _types := Some (configured_modes_mapping host ∪ types) |}.
  split.
  - unfold get_quality_ratio, ensure_types, _init_types.
    rewrite Hfresh, Hhave, Hrun. unfold types_getitem. cbn [_types].
    by destruct ((configured_modes_mapping host ∪ types) !! mimetype)
      as [[mode quality]|].
  - destruct (configured_modes_mapping host !! mimetype)
      as [[mode configured]|] eqn:Hconf.
    + by rewrite (lookup_union_Some_l _ _ _ _ Hconf).
    + rewrite lookup_union_r by done. split.
      * intros Hdecl.
        destruct (for_lexers_quality _ _ _ mimetype Hrun (or_intror Hdecl))
          as [alias ->]. done.
      * intros Hun. destruct (Hlookup mimetype) as [-> _]; done.
Qed.

Lemma get_quality_ratio_fresh_witness :
  ∃ self' : PygmentsRenderer.t,
    get_quality_ratio Example.pygments
      (Example.host {["text/plain" := ("python", 9%Z)]}) Example.fresh
      "text/plain"
    = (Return 9%Z, self').
Proof.
  destruct (get_quality_ratio_fresh Example.pygments
              (Example.host {["text/plain" := ("python", 9%Z)]})
              Example.fresh "text/plain")
    as (quality & self' & Hcall & Hquality).
  - reflexivity.
  - intros name aliases filenames mimetypes Hin _ ->.
    vm_compute in Hin. by elements Hin.
  - reflexivity.
  - exists self'. vm_compute in Hquality. subst quality. exact Hcall.
Defined.

(** X12.  [render] takes the MIME type up to the first [;] only: with
    parameters after a MIME type that has no [;], it does what it does
    for the bare MIME type. *)
Theorem render_ignores_parameters (pygments : Pygments) (host : Host)
    (self : PygmentsRenderer.t) (req : Request)
    (mimetype params content : string) :
  contains ";" mimetype = false →
  render pygments host self req (mimetype +:+ String ";" params) content
  = render pygments host self req mimetype content.
Proof.
  intros Hbare. unfold render.
  by rewrite (split_once _ _ _ Hbare), (split_no_sep _ _ _ Hbare).
Qed.

Lemma render_ignores_parameters_witness :
  render Example.pygments (Example.host ∅) Example.fresh (Example.request None)
    "text/plain; charset=utf-8" "hello"
  = render Example.pygments (Example.host ∅) Example.fresh
      (Example.request None) "text/plain" "hello".
Proof.
  apply (render_ignores_parameters Example.pygments (Example.host ∅)
           Example.fresh (Example.request None) "text/plain"
           " charset=utf-8" "hello").
  reflexivity.
Defined.

Lemma text_of_yielded {tokentype} (css : tokentype → string) lattrs
    (tokens : list (tokentype * string)) :
  text_of (yielded css lattrs tokens) = token_text tokens.
Proof.
  revert lattrs. induction tokens as [|[a value] tokens IH]; intros lattrs;
    [done |].
  cbn [yielded token_text].
  destruct (loop_body_cases css lattrs a value) as [_ | _ _ | _ ->].
  - simpl. by rewrite IH.
  - destruct (opt_truthy seq_truthy lattrs); simpl; by rewrite IH.
  - simpl. by rewrite IH.
Qed.

(** X13.  Rendering keeps the content: when the table has a mode for the
    MIME type, Pygments has a lexer of that name, and the texts of the
    tokens it yields make up the content, [render] returns a stream whose
    [TEXT] payloads concatenate to the content (and which ends as the
    token sequence ends). *)
Theorem render_keeps_content (pygments : Pygments) (host : Host)
    (self self' : PygmentsRenderer.t) (types : gmap string (string * Z))
    (req : Request) (mimetype mimetype' : string) (rest : list string)
    (content language : string) (quality : Z) (lx : lexer pygments)
    (tokens : list (tokentype pygments * string)) (failure : option exn) :
  have_pygments host = true →
  ensure_types pygments host self = (Return (), self') →
  _types self' = Some types →
  Py.split ";" (Some 1) mimetype = mimetype' :: rest →
  types !! mimetype' = Some (language, quality) →
  get_lexer_by_name pygments language = Return lx →
  get_tokens pygments lx content = Return (tokens, failure) →
  token_text tokens = content →
  ∃ events : list Event,
    render pygments host self req mimetype content
    = (Return (events, failure), self', [stylesheet_of host req])
    ∧ text_of events = content.
Proof.
  intros Hhave Hensure Htypes Hsplit Hentry Hlexer Htokens Hcover.
  exists (generate_lazy (_get_css_class pygments) (tokens, failure)).1. split.
  - unfold render. rewrite Hensure, Hsplit. cbn [Py.first mbind result_bind].
    unfold types_getitem. rewrite Htypes, Hentry.
    cbn [mbind result_bind fst]. unfold PygmentsRenderer._generate.
    rewrite Hhave, Hlexer. cbn [mbind result_bind]. rewrite Htokens.
    cbn [mbind result_bind try_except]. by destruct failure.
  - rewrite <- Hcover. destruct failure as [e|]; cbn [generate_lazy fst snd].
    + apply text_of_yielded.
    + apply text_of_generate.
Qed.

Lemma render_keeps_content_witness :
  ∃ (events : list Event) (self' : PygmentsRenderer.t),
    render Example.pygments (Example.host ∅) Example.fresh
      (Example.request None) "text/plain" "hello"
    = (Return (events, None), self', ["/pygments/trac.css"])
    ∧ text_of events = "hello".
Proof.
  destruct (render_keeps_content Example.pygments (Example.host ∅)
              Example.fresh
              (PygmentsRenderer._init_types Example.pygments (Example.host ∅)
                 Example.fresh).2
              (configured_modes_mapping (Example.host ∅)
                 ∪ (for_lexers (get_all_lexers Example.pygments) ∅).2)
              (Example.request None) "text/plain" "text/plain" [] "hello"
              "text" 7%Z "text" [(Example.Text, "hello")] None)
    as (events & Hrender & Htext);
    [reflexivity | by vm_compute | by vm_compute | reflexivity | by vm_compute
    | reflexivity | reflexivity | reflexivity |].
  by exists events, (PygmentsRenderer._init_types Example.pygments
                       (Example.host ∅) Example.fresh).2.
Defined.

(** X14.  [render] never raises a [KeyError] or a [ValueError]: what it
    returns or raises is something else. *)
Theorem render_no_key_or_value_error (pygments : Pygments) (host : Host)
    (self : PygmentsRenderer.t) (req : Request) (mimetype content : string) :
  match (render pygments host self req mimetype content).1.1 with
  | Return _ => True
  | Raise e => is_KeyError e = false ∧ is_ValueError e = false
  end.
Proof.
  unfold render.
  destruct (ensure_types pygments host self) as [[[]|e] self'] eqn:Hensure.
  - cbn [fst]. unfold try_except.
    destruct (mbind _ _) as [events|e]; [done |].
    destruct (is_KeyError e) eqn:Hkey; [done |].
    destruct (is_ValueError e) eqn:Hvalue; done.
  - destruct (ensure_types_raise _ _ _ _ _ Hensure) as (_ & _ & -> & _). done.
Qed.

Lemma split_last sep package name :
  contains sep name = false →
  Py.split sep None (package +:+ String sep name)
  = Py.split sep None package ++ [name].
Proof.
  intros Hname. induction package as [|c package IH].
  - simpl. rewrite bool_decide_eq_true_2 by done. simpl.
    by rewrite (split_no_sep _ _ _ Hname).
  - simpl. rewrite IH.
    destruct (bool_decide (c = sep) && true); [done |].
    pose proof (split_nonempty sep None package) as Hparts.
    by destruct (Py.split sep None package).
Qed.

Lemma join_split sep s : Py.join (String sep "") (Py.split sep None s) = s.
Proof.
  induction s as [|c s IH]; [done |]. simpl.
  pose proof (split_nonempty sep None s) as Hparts.
  destruct (Py.split sep None s) as [|q qs]; [done |].
  case_bool_decide as Hc; simpl.
  - subst c. simpl in IH. by rewrite IH.
  - destruct qs as [|r rs].
    + simpl in IH. by rewrite IH.
    + change (String c (Py.join (String sep "") (q :: r :: rs)) = String c s).
      by rewrite IH.
Qed.

Lemma last_snoc {A} (l : list A) (x : A) : Py.last (l ++ [x]) = Return x.
Proof.
  unfold Py.last. rewrite fmap_app.
  change (Some <$> [x]) with [Some x]. by rewrite last_last.
Qed.

(** X15.  What [process_request] sends when it returns.  With the module
    of the style class being [package.name], the date is that of the file
    [name.py] of the package.  Either status 304 and the end of the
    headers and nothing else, exactly when the [If-Modified-Since] header
    of the request is that date; or status 200 with the content type
    [text/css; charset=utf-8], a [Last-Modified] header of that date, a
    body that is the style definitions for [div.code pre] and for
    [table.code td] with an empty line between, and a [Content-Length]
    that is the length of that body. *)
Theorem process_request_response (pygments : Pygments) (host : Host)
    (req : Request) (actions : list action) :
  process_request pygments host req = Return actions →
  ∃ (theme : string) (style_cls : style pygments),
    args req !! "style" = Some theme
    ∧ get_style_by_name pygments theme = Return style_cls
    ∧ ∀ package name : string,
        style_module pygments style_cls = package +:+ String "." name →
        contains "." name = false →
        ∃ last_modified : string,
          last_modified_of host
            (resource_filename host package (name +:+ ".py"))
          = Return last_modified
          ∧ if bool_decide
                 (get_header req "If-Modified-Since" = Some last_modified)
            then actions = [send_response 304; end_headers]
            else status actions = Some 200%Z
                 ∧ header "Content-Type" actions
                   = Some (HStr "text/css; charset=utf-8")
                 ∧ header "Last-Modified" actions = Some (HStr last_modified)
                 ∧ body actions
                   = get_style_defs pygments style_cls "div.code pre"
                     +:+ String "010" (String "010" "")
                     +:+ get_style_defs pygments style_cls "table.code td"
                 ∧ header "Content-Length" actions
                   = Some (HInt (Z.of_nat (String.length (body actions)))).
Proof.
  unfold process_request. intros Hcall.
  destruct (args req !! "style") as [theme|]; [| done].
  cbn [mbind result_bind] in Hcall.
  destruct (have_pygments host); [| done].
  destruct (get_style_by_name pygments theme) as [style_cls|e] eqn:Hstyle;
    [| cbn in Hcall; by destruct (is_ValueError e)].
  cbn [try_except mbind result_bind] in Hcall.
  exists theme, style_cls. split_and!; [done | done |].
  intros package name Hmodule Hname.
  rewrite Hmodule, (split_last _ _ _ Hname), last_snoc in Hcall.
  cbn [mbind result_bind] in Hcall.
  unfold Py.init in Hcall. rewrite removelast_last, join_split in Hcall.
  destruct (last_modified_of host _) as [last_modified|e] eqn:Hdate; [| done].
  cbn [mbind result_bind] in Hcall. exists last_modified.
  split; [done |]. case_bool_decide as Hsince.
  - rewrite bool_decide_eq_true_2 by done. by injection Hcall as <-.
  - rewrite bool_decide_eq_false_2 by done. injection Hcall as <-.
    assert (∀ content : string, content +:+ "" = content) as Hempty.
    { intros content. induction content as [|c content IH]; [done |].
      change (String c (content +:+ "") = String c content). by rewrite IH. }
    split_and!; [done | done | done | |];
      cbn -[String.length String.append]; by rewrite Hempty.
Qed.

Lemma process_request_response_witness :
  ∃ actions : list action,
    process_request Example.pygments (Example.host ∅)
      (Example.request (Some "trac"))
    = Return actions
    ∧ status actions = Some 200%Z
    ∧ body actions
      = get_style_defs Example.pygments "trac" "div.code pre"
        +:+ String "010" (String "010" "")
        +:+ get_style_defs Example.pygments "trac" "table.code td"
    ∧ header "Content-Length" actions
      = Some (HInt (Z.of_nat (String.length (body actions)))).
Proof.
  eexists. split; [by vm_compute |].
  destruct (process_request_response Example.pygments (Example.host ∅)
              (Example.request (Some "trac")) _ eq_refl)
    as (theme & style_cls & Hstyle & Hcls & Hresponse).
  vm_compute in Hstyle. injection Hstyle as <-.
  vm_compute in Hcls. injection Hcls as <-.
  destruct (Hresponse "pygments.styles" "trac" eq_refl eq_refl)
    as (last_modified & _ & Hsent).
  rewrite bool_decide_eq_false_2 in Hsent by done.
  by destruct Hsent as (? & _ & _ & ? & ?).
Defined.

(** * Properties of the request matcher and the preference panel *)

Lemma literal_Some p s rest : Re.literal p s = Some rest → s = p +:+ rest.
Proof.
  revert s. induction p as [|c p IH]; intros s; simpl.
  - by intros [= ->].
  - destruct s as [|d s]; [done |]. case_bool_decide as Hc; [| done].
    subst d. intros Hrest. by rewrite (IH _ Hrest).
Qed.

Lemma literal_append p rest : Re.literal p (p +:+ rest) = Some rest.
Proof.
  induction p as [|c p IH]; [done |]. simpl.
  by rewrite bool_decide_eq_true_2.
Qed.

Lemma word_split s w rest :
  Re.word s = (w, rest) → s = w +:+ rest ∧ all_word w = true.
Proof.
  revert w. induction s as [|c s IH]; intros w; simpl.
  - by intros [= <- <-].
  - destruct (Re.is_word c) eqn:Hc.
    + destruct (Re.word s) as [w' rest'] eqn:Hword. intros [= <- <-].
      destruct (IH w' eq_refl) as [-> Hw']. simpl. by rewrite Hc, Hw'.
    + by intros [= <- <-].
Qed.

Lemma word_append w c rest :
  all_word w = true → Re.is_word c = false →
  Re.word (w +:+ String c rest) = (w, String c rest).
Proof.
  intros Hw Hc. induction w as [|d w IH]; simpl.
  - by rewrite Hc.
  - simpl in Hw. apply andb_true_iff in Hw as [Hd Hw]. rewrite Hd.
    by rewrite (IH Hw).
Qed.

Lemma word_stops s rest :
  all_word s = false → contains "." s = false →
  ∃ w c r, Re.word (s +:+ rest) = (w, String c r) ∧ c ≠ "."%char.
Proof.
  induction s as [|d s IH]; [done |]. simpl.
  intros Hword [Hd Hs]%orb_false_iff.
  destruct (Re.is_word d) eqn:Hwd.
  - destruct (IH Hword Hs) as (w & c & r & -> & Hc). eauto.
  - exists "", d, (s +:+ rest). split; [done |].
    by apply bool_decide_eq_false in Hd.
Qed.

(** X16.  [match_request] accepts a request only when Pygments is there
    and the path starts with [/pygments/], a non-empty name of letters,
    digits and underscores, and [.css] (anything may follow); the request
    then carries that name as its [style] argument and is otherwise
    unchanged. *)
Theorem match_request_accepts (host : Host) (req req' : WebRequest) :
  Panel.match_request host req = (Some true, req') →
  have_pygments host = true
  ∧ ∃ name rest : string,
      path_info req = "/pygments/" +:+ name +:+ ".css" +:+ rest
      ∧ name ≠ "" ∧ all_word name = true
      ∧ req' = set_arg "style" name req
      ∧ args req' !! "style" = Some name.
Proof.
  unfold Panel.match_request, Re.match_pygments_css.
  destruct (have_pygments host); [| done].
  destruct (Re.literal "/pygments/" (path_info req)) as [rest0|] eqn:Hprefix;
    [| done].
  cbn [mbind option_bind].
  destruct (Re.word rest0) as [name rest1] eqn:Hword.
  destruct (str_truthy name) eqn:Hname; [| done].
  destruct (Re.literal ".css" rest1) as [rest|] eqn:Hsuffix; [| done].
  cbn [mbind option_bind]. intros [= <-]. split; [done |].
  exists name, rest.
  apply literal_Some in Hprefix, Hsuffix.
  apply word_split in Hword as [Hrest0 Hall].
  split_and!; [congruence | by intros -> | done | done |].
  simpl. apply lookup_insert_eq.
Qed.

Lemma match_request_accepts_witness :
  ∃ name rest : string,
    "/pygments/trac.css.orig" = "/pygments/" +:+ name +:+ ".css" +:+ rest
    ∧ args (Panel.match_request (Example.host ∅)
              (Edge.web_request "/pygments/trac.css.orig" "GET" None)).2
        !! "style"
      = Some name.
Proof.
  destruct (match_request_accepts (Example.host ∅)
              (Edge.web_request "/pygments/trac.css.orig" "GET" None)
              (set_arg "style" "trac"
                 (Edge.web_request "/pygments/trac.css.orig" "GET" None))
              eq_refl)
    as (_ & name & rest & Hpath & _ & _ & Hreq & Hstyle).
  exists name, rest. split; [exact Hpath |].
  change (args (set_arg "style" "trac"
                  (Edge.web_request "/pygments/trac.css.orig" "GET" None))
            !! "style" = Some name).
  exact Hstyle.
Defined.

(** X17.  The style sheet that [render] adds comes back: when the style
    it names (the session's, or the default one) is a non-empty name of
    letters, digits and underscores, [match_request] accepts a request
    for that path and sets the [style] argument to that style. *)
Theorem match_request_stylesheet (host : Host) (rendered : Request)
    (req : WebRequest) :
  have_pygments host = true →
  all_word (default (default_style host)
              (session rendered !! "pygments_style")) = true →
  default (default_style host) (session rendered !! "pygments_style") ≠ "" →
  path_info req = stylesheet_of host rendered →
  Panel.match_request host req
  = (Some true,
     set_arg "style"
       (default (default_style host) (session rendered !! "pygments_style"))
       req).
Proof.
  unfold stylesheet_of, Panel.match_request, Re.match_pygments_css.
  generalize (default (default_style host)
                (session rendered !! "pygments_style")).
  intros style Hhave Hword Hstyle ->. rewrite Hhave.
  rewrite literal_append. cbn [mbind option_bind].
  rewrite (word_append style "." "css" Hword eq_refl).
  rewrite (str_truthy_true _ Hstyle).
  change (String "." "css") with (".css" +:+ "").
  by rewrite literal_append.
Qed.

Lemma match_request_stylesheet_witness :
  Panel.match_request (Example.host ∅)
    (Edge.web_request (stylesheet_of (Example.host ∅) (Example.request None))
       "GET" None)
  = (Some true,
     set_arg "style" "trac"
       (Edge.web_request
          (stylesheet_of (Example.host ∅) (Example.request None)) "GET" None)).
Proof.
  apply (match_request_stylesheet (Example.host ∅) (Example.request None)
           (Edge.web_request
              (stylesheet_of (Example.host ∅) (Example.request None))
              "GET" None));
    [reflexivity | reflexivity | discriminate | reflexivity].
Defined.

(** X18.  A style whose name has a character other than letters, digits
    and underscores (and no dot) cannot be requested: the path
    [/pygments/<name>.css] is not accepted, and the request is left as it
    is. *)
Theorem match_request_rejects (host : Host) (req : WebRequest)
    (style : string) :
  all_word style = false →
  contains "." style = false →
  path_info req = "/pygments/" +:+ style +:+ ".css" →
  Panel.match_request host req = (None, req).
Proof.
  intros Hword Hdot Hpath.
  unfold Panel.match_request, Re.match_pygments_css. rewrite Hpath.
  destruct (have_pygments host); [| done].
  rewrite literal_append. cbn [mbind option_bind].
  destruct (word_stops style ".css" Hword Hdot) as (w & c & r & -> & Hc).
  destruct (str_truthy w); [| done].
  simpl. by rewrite bool_decide_eq_false_2 by congruence.
Qed.

Lemma match_request_rejects_witness :
  Panel.match_request (Example.host ∅)
    (Edge.web_request "/pygments/solarized-dark.css" "GET" None)
  = (None, Edge.web_request "/pygments/solarized-dark.css" "GET" None).
Proof.
  apply (match_request_rejects (Example.host ∅)
           (Edge.web_request "/pygments/solarized-dark.css" "GET" None)
           "solarized-dark");
    reflexivity.
Defined.

(** X19.  What the preference panel does to the request.  On a [POST]
    whose [style] argument is a non-empty name that [get_all_styles]
    lists, it stores that name as the session's [pygments_style] and
    changes nothing else.  In every other case it leaves the request as
    it is.  It calls [redirect] only on a [POST]. *)
Theorem render_preference_panel_session (pygments : Pygments) (host : Host)
    (registry : Styles) (req req' : WebRequest) (panel : option string)
    (r : result (string * Panel.data)) (urls : list string) :
  Panel.render_preference_panel pygments host registry req panel
  = (r, req', urls) →
  (∀ (style : string) (styles : list string),
     method req = "POST" →
     args req !! "style" = Some style →
     style ≠ "" →
     Panel.get_all_styles registry = Return styles →
     style ∈ styles →
     req' = set_session "pygments_style" style req
     ∧ session req' !! "pygments_style" = Some style)
  ∧ (req' = req
     ∨ ∃ (style : string) (styles : list string),
         method req = "POST"
         ∧ args req !! "style" = Some style
         ∧ style ≠ ""
         ∧ Panel.get_all_styles registry = Return styles
         ∧ style ∈ styles
         ∧ req' = set_session "pygments_style" style req)
  ∧ (method req ≠ "POST" → req' = req ∧ urls = []).
Proof.
  unfold Panel.render_preference_panel.
  destruct (Panel.get_all_styles registry) as [styles|e] eqn:Hstyles.
  - intros [= _ <- <-]. split_and!.
    + intros style styles' Hpost Hstyle Hname [= <-] Hknown.
      rewrite bool_decide_eq_true_2 by done. rewrite Hstyle.
      rewrite (str_truthy_true _ Hname), bool_decide_eq_true_2 by done.
      split; [done |]. simpl. apply lookup_insert_eq.
    + case_bool_decide as Hpost; [| by left].
      destruct (args req !! "style") as [style|] eqn:Hstyle; [| by left].
      destruct (str_truthy style) eqn:Hname; [| by left].
      case_bool_decide as Hknown; [| by left].
      right. exists style, styles.
      split_and!; [done | done | by intros -> | done | done | done].
    + intros Hget. by rewrite !bool_decide_eq_false_2 by done.
  - intros [= _ <- <-]. split_and!; [done | by left | done].
Qed.

Lemma render_preference_panel_session_witness :
  session (Panel.render_preference_panel Example.pygments (Example.host ∅)
             Edge.registry
             (Edge.web_request "/prefs/pygments" "POST" (Some "nope"))
             (Some "pygments")).1.2
  = session (Edge.web_request "/prefs/pygments" "POST" (Some "nope"))
  ∧ session (Panel.render_preference_panel Example.pygments (Example.host ∅)
               Edge.registry
               (Edge.web_request "/prefs/pygments" "POST" (Some "default"))
               (Some "pygments")).1.2
    !! "pygments_style"
    = Some "default".
Proof.
  split.
  - destruct (render_preference_panel_session Example.pygments
                (Example.host ∅) Edge.registry
                (Edge.web_request "/prefs/pygments" "POST" (Some "nope"))
                _ (Some "pygments") _ _ eq_refl)
      as (_ & [Hsame | (style & styles & _ & Hstyle & _ & Hall & Hin & _)] & _).
    + exact (f_equal (λ r : WebRequest, session r) Hsame).
    + exfalso. vm_compute in Hstyle. injection Hstyle as <-.
      injection Hall as <-. by elements Hin.
  - destruct (render_preference_panel_session Example.pygments
                (Example.host ∅) Edge.registry
                (Edge.web_request "/prefs/pygments" "POST" (Some "default"))
                _ (Some "pygments") _ _ eq_refl)
      as (Hstore & _ & _).
    destruct (Hstore "default" ["trac"; "default"; "solarized-dark"])
      as [_ Hsession];
      [reflexivity | by vm_compute | discriminate | reflexivity
      | compute_done |].
    exact Hsession.
Defined.

(** * Where the entries of the table come from *)

Lemma for_mimetypes_sound aliases mimetypes
    (types types' : gmap string (string * Z)) r mimetype mode quality :
  for_mimetypes aliases mimetypes types = (r, types') →
  types' !! mimetype = Some (mode, quality) →
  types !! mimetype = Some (mode, quality)
  ∨ (quality = QUALITY_RATIO ∧ mimetype ∈ mimetypes
     ∧ ∃ others, aliases = mode :: others).
Proof.
  revert types. induction mimetypes as [|m mimetypes IH]; intros types; simpl.
  - intros [= _ <-]. by left.
  - destruct aliases as [|alias others]; simpl.
    + intros [= _ <-]. by left.
    + intros Hrun Hentry.
      destruct (IH _ Hrun Hentry) as [Hbefore | (-> & Hin & Hmode)].
      * destruct (decide (m = mimetype)) as [-> | Hne].
        -- rewrite lookup_insert_eq in Hbefore. injection Hbefore as <- <-.
           right. split_and!; [done | apply list_elem_of_here | eauto].
        -- rewrite lookup_insert_ne in Hbefore by done. by left.
      * right. split_and!; [done | by apply list_elem_of_further | done].
Qed.

Lemma for_lexers_sound lexers
    (types types' : gmap string (string * Z)) r mimetype mode quality :
  for_lexers lexers types = (r, types') →
  types' !! mimetype = Some (mode, quality) →
  types !! mimetype = Some (mode, quality)
  ∨ (quality = QUALITY_RATIO
     ∧ ∃ name others filenames mimetypes,
         (name, mode :: others, filenames, mimetypes) ∈ lexers
         ∧ mimetype ∈ mimetypes).
Proof.
  revert types.
  induction lexers as [|[[[name aliases] filenames] mimetypes] lexers IH];
    intros types.
  - intros [= _ <-]. by left.
  - cbn [for_lexers].
    destruct (for_mimetypes aliases mimetypes types) as [r1 types1] eqn:Hhead.
    intros Hrun Hentry.
    assert (types1 !! mimetype = Some (mode, quality)
            ∨ (quality = QUALITY_RATIO
               ∧ ∃ name0 others filenames0 mimetypes0,
                   (name0, mode :: others, filenames0, mimetypes0) ∈ lexers
                   ∧ mimetype ∈ mimetypes0)) as [Hmid | Hlater].
    { destruct r1 as [[]|e1].
      - by apply IH.
      - injection Hrun as _ <-. by left. }
    + destruct (for_mimetypes_sound _ _ _ _ _ _ _ _ Hhead Hmid)
        as [Hbefore | (-> & Hin & others & ->)]; [by left |].
      right. split; [done |]. exists name, others, filenames, mimetypes.
      split; [apply list_elem_of_here | done].
    + destruct Hlater as (-> & n & others & fn & ms & Hin & Hm).
      right. split; [done |]. exists n, others, fn, ms.
      split; [by apply list_elem_of_further | done].
Qed.

(** X20.  Every entry of the table that [_init_types] leaves, also when
    it raises, is either the configured entry of its MIME type, or has
    quality 7 and as mode the first alias of a lexer that declares the
    MIME type. *)
Theorem init_types_entries (pygments : Pygments) (host : Host)
    (self self' : PygmentsRenderer.t) (r : result unit)
    (types : gmap string (string * Z)) (mimetype mode : string)
    (quality : Z) :
  _init_types pygments host self = (r, self') →
  _types self' = Some types →
  types !! mimetype = Some (mode, quality) →
  configured_modes_mapping host !! mimetype = Some (mode, quality)
  ∨ (quality = 7%Z
     ∧ ∃ name others filenames mimetypes,
         (name, mode :: others, filenames, mimetypes)
           ∈ get_all_lexers pygments
         ∧ mimetype ∈ mimetypes).
Proof.
  unfold _init_types. destruct (have_pygments host).
  - destruct (for_lexers _ _) as [[[]|e] types1] eqn:Hrun.
    + intros [= _ <-] [= <-] Hentry.
      apply lookup_union_Some_raw in Hentry as [Hconf | [_ Hlexer]];
        [by left |].
      destruct (for_lexers_sound _ _ _ _ _ _ _ Hrun Hlexer) as [? | ?];
        [done | by right].
    + intros [= _ <-] [= <-] Hentry.
      destruct (for_lexers_sound _ _ _ _ _ _ _ Hrun Hentry) as [? | ?];
        [done | by right].
  - by intros [= _ <-] [= <-] ?.
Qed.

Lemma init_types_entries_witness :
  configured_modes_mapping (Example.host ∅) !! "text/x-python"
  = Some ("mypython", 7%Z)
  ∨ (7%Z = 7%Z
     ∧ ∃ name others filenames mimetypes,
         (name, "mypython" :: others, filenames, mimetypes)
           ∈ get_all_lexers Example.pygments
         ∧ "text/x-python" ∈ mimetypes).
Proof.
  apply (init_types_entries Example.pygments (Example.host ∅) Example.fresh
           (_init_types Example.pygments (Example.host ∅) Example.fresh).2
           (Return ())
           (configured_modes_mapping (Example.host ∅)
              ∪ (for_lexers (get_all_lexers Example.pygments) ∅).2)
           "text/x-python" "mypython" 7%Z);
    [by vm_compute | by vm_compute | by vm_compute].
Defined.

(** * The quality of a MIME type without entry *)

(** X21.  When the table is there (already built, or built by this
    call) and has no entry for the MIME type, [get_quality_ratio]
    returns the integer 0 and does not raise, whereas the lookup
    [self._types[mimetype]] itself fails with a [KeyError]. *)
Theorem get_quality_ratio_absent (pygments : Pygments) (host : Host)
    (self self' : PygmentsRenderer.t) (types : gmap string (string * Z))
    (mimetype : string) :
  ensure_types pygments host self = (Return (), self') →
  _types self' = Some types →
  types !! mimetype = None →
  get_quality_ratio pygments host self mimetype = (Return 0%Z, self')
  ∧ types_getitem self' mimetype = Raise (KeyError mimetype).
Proof.
  intros Hensure Htypes Hnone. unfold get_quality_ratio.
  rewrite Hensure. unfold types_getitem. rewrite Htypes, Hnone.
  split; reflexivity.
Qed.

Lemma get_quality_ratio_absent_witness :
  ∃ self' : PygmentsRenderer.t,
    get_quality_ratio Example.pygments (Example.host ∅) Example.fresh
      "text/x-unknown"
    = (Return 0%Z, self')
    ∧ types_getitem self' "text/x-unknown" = Raise (KeyError "text/x-unknown").
Proof.
  eexists.
  eapply (get_quality_ratio_absent Example.pygments (Example.host ∅)
            Example.fresh _ _ "text/x-unknown");
    [vm_compute; reflexivity | reflexivity | vm_compute; reflexivity].
Defined.
